(** * vmclarity: family manager, Azure scanner lifecycle and scan-result table

    A shallow embedding of
    - [families.New] and [Manager.Run] (package [families]),
    - the Azure provider's tag filter, instance-id parser, scanner-VM
      "ensure" step, scan pipeline and teardown pipeline (package [azure]),
    - [checkRevisionEtag], [bumpRevision] and [CreateScanResult]
      (package [gorm]),
    together with the properties the specification states about them. *)

From Stdlib Require Import ZArith Lia List Bool Ascii String.
From stdpp Require Import base option list strings pretty gmap.
Import ListNotations.

Local Open Scope string_scope.
Local Open Scope list_scope.

(** Go's [error] values are compared here by their message. *)
Abbreviation error := string (only parsing).

(* ===================================================================== *)
(** * Package families *)
(* ===================================================================== *)

Module Families.

(** Modelled from the spec: the [types] package is not in the sources; the
    family tags are the seven of the data model. *)
Inductive FamilyType : Type :=
  | SBOM | Vulnerabilities | Secrets | Rootkits | Malware | Misconfiguration | Exploits.

#[global] Instance FamilyType_eq_dec : EqDecision FamilyType.
Proof. solve_decision. Defined.

(** The per-family part of [Config]: only the [Enabled] gate is read by
    [New]; the rest of a family's configuration is carried opaquely. *)
Record FamilyConfig : Type := mkFamilyConfig { Enabled : bool; params : string }.

Record Config : Type := mkConfig {
  cfgSBOM : FamilyConfig;
  cfgVulnerabilities : FamilyConfig;
  cfgSecrets : FamilyConfig;
  cfgRootkits : FamilyConfig;
  cfgMalware : FamilyConfig;
  cfgMisconfiguration : FamilyConfig;
  cfgExploits : FamilyConfig
}.

(** An [interfaces.Family] value as [sbom.New], [vulnerabilities.New], ...
    build it: its type tag and the configuration it was built from.  Its
    [Run] capability is supplied by the environment below. *)
Record Family : Type := mkFamily { GetType : FamilyType; familyConfig : FamilyConfig }.

Record Manager : Type := mkManager { config : Config; families : list Family }.

Definition sbom_New (c : FamilyConfig) : Family := mkFamily SBOM c.
Definition vulnerabilities_New (c : FamilyConfig) : Family := mkFamily Vulnerabilities c.
Definition secrets_New (c : FamilyConfig) : Family := mkFamily Secrets c.
Definition rootkits_New (c : FamilyConfig) : Family := mkFamily Rootkits c.
Definition malware_New (c : FamilyConfig) : Family := mkFamily Malware c.
Definition misconfiguration_New (c : FamilyConfig) : Family := mkFamily Misconfiguration c.
Definition exploits_New (c : FamilyConfig) : Family := mkFamily Exploits c.

(** [manager.families = append(manager.families, f)] *)
Definition appendFamily (m : Manager) (f : Family) : Manager :=
  mkManager (config m) (families m ++ [f]).

Definition New (config : Config) : Manager :=
  let manager := mkManager config [] in
  (* Analyzers. *)
  let manager :=
    if Enabled (cfgSBOM config) then appendFamily manager (sbom_New (cfgSBOM config)) else manager in
  (* Scanners. *)
  let manager :=
    if Enabled (cfgVulnerabilities config)
    then appendFamily manager (vulnerabilities_New (cfgVulnerabilities config)) else manager in
  let manager :=
    if Enabled (cfgSecrets config) then appendFamily manager (secrets_New (cfgSecrets config)) else manager in
  let manager :=
    if Enabled (cfgRootkits config) then appendFamily manager (rootkits_New (cfgRootkits config)) else manager in
  let manager :=
    if Enabled (cfgMalware config) then appendFamily manager (malware_New (cfgMalware config)) else manager in
  let manager :=
    if Enabled (cfgMisconfiguration config)
    then appendFamily manager (misconfiguration_New (cfgMisconfiguration config)) else manager in
  (* Enrichers. *)
  let manager :=
    if Enabled (cfgExploits config) then appendFamily manager (exploits_New (cfgExploits config)) else manager in
  manager.

(** The fixed order of the construction contract, and the configuration
    each tag is gated by. *)
Definition fixedOrder : list FamilyType :=
  [SBOM; Vulnerabilities; Secrets; Rootkits; Malware; Misconfiguration; Exploits].

Definition configOf (c : Config) (ft : FamilyType) : FamilyConfig :=
  match ft with
  | SBOM => cfgSBOM c
  | Vulnerabilities => cfgVulnerabilities c
  | Secrets => cfgSecrets c
  | Rootkits => cfgRootkits c
  | Malware => cfgMalware c
  | Misconfiguration => cfgMisconfiguration c
  | Exploits => cfgExploits c
  end.

Definition enabledIn (c : Config) (ft : FamilyType) : bool := Enabled (configOf c ft).

Section Run.

(** The environment of one [Manager.Run] call.

    [World] is everything outside the manager (the notifier's state, the
    context, the scanners); [Res] is the type of non-nil [IsResults]
    values, so an interface value is an [option Res] with [None] for nil. *)
Context {World Res : Type}.

Record FamilyResult : Type := mkFamilyResult {
  Result : option Res;
  FamilyType_ : FamilyType;
  Err : option error
}.

(** What the [select] of one iteration observes: the context's [Done]
    channel, or the [FamilyResult] sent by the goroutine running
    [family.Run]. *)
Inductive Selected : Type :=
  | CtxDone
  | Received (ret : option Res) (err : option error).

(** Modelled from the spec: the [results] package is not in the sources;
    the store is the append-only aggregate of completed family results of
    the data model, in the order they were stored. *)
Definition Results : Type := list (option Res).

(** Modelled from the spec: [results.New], which is not in the sources,
    creates the store once per run, empty. *)
Definition results_New : Results := [].

(** Modelled from the spec: [SetResults], which is not in the sources,
    adds a result to the store and leaves what is stored as it is. *)
Definition SetResults (r : Results) (x : option Res) : Results := r ++ [x].

(** [notifier.FamilyStarted], [notifier.FamilyFinished]; [family.Run] as
    launched in its goroutine with the results so far and raced by the
    [select] against [ctx.Done()]; [%v] of a family type. *)
Variable FamilyStarted : FamilyType -> World -> option error * World.
Variable FamilyFinished : FamilyResult -> World -> option error * World.
Variable Run : Family -> Results -> World -> Selected * World.
Variable FamilyType_String : FamilyType -> string.

(** The history of one run: every call the loop makes, with the answer
    it got. *)
Inductive Event : Type :=
  | EvFamilyStarted (ft : FamilyType) (res : option error)
  | EvRun (ft : FamilyType)
  | EvCtxDone (ft : FamilyType)
  | EvReceived (r : FamilyResult)
  | EvSetResults (x : option Res)
  | EvFamilyFinished (r : FamilyResult) (res : option error).

(** The local variables of [Manager.Run], with the world and the history. *)
Record RunState : Type := mkRunState {
  oneOrMoreFamilyFailed : bool;
  errors : list error;
  familyResults : Results;
  world : World;
  trace : list Event
}.

Definition startedFailedMsg (err : error) : error :=
  "family started notification failed: " +:+ err.
Definition finishedFailedMsg (err : error) : error :=
  "family finished notification failed: " +:+ err.
Definition abortedMsg (ft : FamilyType) : error :=
  "failed to run family " +:+ FamilyType_String ft +:+ ": aborted".
Definition atLeastOneFailedMsg : error := "at least one family failed to run".

(** [errors = append(errors, "family finished notification failed: ...")]
    when the notification [res] failed. *)
Definition appendFinishedError (errs : list error) (res : option error) : list error :=
  match res with
  | Some err => errs ++ [finishedFailedMsg err]
  | None => errs
  end.

(** One iteration of the [for _, family := range m.families] loop. *)
Definition runFamily (s : RunState) (family : Family) : RunState :=
  let ft := GetType family in
  let '(started, w1) := FamilyStarted ft (world s) in
  match started with
  | Some err =>
      (* errors = append(errors, ...); continue *)
      mkRunState (oneOrMoreFamilyFailed s)
                 (errors s ++ [startedFailedMsg err])
                 (familyResults s)
                 w1
                 (trace s ++ [EvFamilyStarted ft (Some err)])
  | None =>
      let '(sel, w2) := Run family (familyResults s) w1 in
      match sel with
      | CtxDone =>
          let r := mkFamilyResult None ft (Some (abortedMsg ft)) in
          let '(finished, w3) := FamilyFinished r w2 in
          mkRunState true
                     (appendFinishedError (errors s) finished)
                     (familyResults s)
                     w3
                     (trace s ++ [EvFamilyStarted ft None; EvRun ft; EvCtxDone ft;
                                  EvFamilyFinished r finished])
      | Received ret err =>
          let r := mkFamilyResult ret ft err in
          match err with
          | Some _ =>
              let '(finished, w3) := FamilyFinished r w2 in
              mkRunState true
                         (appendFinishedError (errors s) finished)
                         (familyResults s)
                         w3
                         (trace s ++ [EvFamilyStarted ft None; EvRun ft; EvReceived r;
                                      EvFamilyFinished r finished])
          | None =>
              let store := SetResults (familyResults s) ret in
              let '(finished, w3) := FamilyFinished r w2 in
              mkRunState (oneOrMoreFamilyFailed s)
                         (appendFinishedError (errors s) finished)
                         store
                         w3
                         (trace s ++ [EvFamilyStarted ft None; EvRun ft; EvReceived r;
                                      EvSetResults ret; EvFamilyFinished r finished])
          end
      end
  end.

(** The loop over a list of families, from a given state. *)
Definition runFamilies (fs : list Family) (s : RunState) : RunState :=
  fold_left runFamily fs s.

Definition initState (w : World) : RunState := mkRunState false [] results_New w [].

(** The state when the loop of [Manager.Run] is left. *)
Definition runLoop (m : Manager) (w : World) : RunState :=
  runFamilies (families m) (initState w).

(** [Manager.Run]: the returned error list. *)
Definition Manager_Run (m : Manager) (w : World) : list error :=
  let s := runLoop m w in
  if oneOrMoreFamilyFailed s then errors s ++ [atLeastOneFailedMsg] else errors s.

(** ** Readings of a history *)

(** The families whose [FamilyStarted] notification was made, in order. *)
Fixpoint attempted (t : list Event) : list FamilyType :=
  match t with
  | [] => []
  | EvFamilyStarted ft _ :: t' => ft :: attempted t'
  | _ :: t' => attempted t'
  end.

(** The families whose [Run] goroutine was launched, in order. *)
Fixpoint launched (t : list Event) : list FamilyType :=
  match t with
  | [] => []
  | EvRun ft :: t' => ft :: launched t'
  | _ :: t' => launched t'
  end.

(** The results received with a nil error, in order. *)
Fixpoint succeededResults (t : list Event) : Results :=
  match t with
  | [] => []
  | EvReceived r :: t' =>
      match Err r with
      | None => Result r :: succeededResults t'
      | Some _ => succeededResults t'
      end
  | _ :: t' => succeededResults t'
  end.

(** A family failed: its [Run] returned an error, or it was aborted by
    the cancellation of the context. *)
Definition isRunFailure (e : Event) : bool :=
  match e with
  | EvCtxDone _ => true
  | EvReceived r => match Err r with Some _ => true | None => false end
  | _ => false
  end.

(** A family was skipped because its [FamilyStarted] notification failed. *)
Definition isSkipped (e : Event) : bool :=
  match e with
  | EvFamilyStarted _ (Some _) => true
  | _ => false
  end.

(** The history of one iteration, by what happened to the family. *)
Inductive SegmentOf (f : Family) : list Event -> Prop :=
  | SegSkipped err :
      SegmentOf f [EvFamilyStarted (GetType f) (Some err)]
  | SegAborted res :
      SegmentOf f [EvFamilyStarted (GetType f) None; EvRun (GetType f); EvCtxDone (GetType f);
                   EvFamilyFinished (mkFamilyResult None (GetType f) (Some (abortedMsg (GetType f)))) res]
  | SegErrored ret err res :
      SegmentOf f [EvFamilyStarted (GetType f) None; EvRun (GetType f);
                   EvReceived (mkFamilyResult ret (GetType f) (Some err));
                   EvFamilyFinished (mkFamilyResult ret (GetType f) (Some err)) res]
  | SegSucceeded ret res :
      SegmentOf f [EvFamilyStarted (GetType f) None; EvRun (GetType f);
                   EvReceived (mkFamilyResult ret (GetType f) None);
                   EvSetResults ret;
                   EvFamilyFinished (mkFamilyResult ret (GetType f) None) res].

(** An entry of the error list that reports a failed notification. *)
Definition isNotificationError (e : error) : Prop :=
  (exists err, e = startedFailedMsg err) \/ (exists err, e = finishedFailedMsg err).

(* --------------------------------------------------------------------- *)
(** ** The loop, one iteration at a time *)
(* --------------------------------------------------------------------- *)

Lemma runFamilies_nil (s : RunState) : runFamilies [] s = s.
Proof. reflexivity. Qed.

Lemma runFamilies_cons (f : Family) (fs : list Family) (s : RunState) :
  runFamilies (f :: fs) s = runFamilies fs (runFamily s f).
Proof. reflexivity. Qed.

Lemma runFamilies_app (fs gs : list Family) (s : RunState) :
  runFamilies (fs ++ gs) s = runFamilies gs (runFamilies fs s).
Proof. unfold runFamilies. apply fold_left_app. Qed.

(** A property kept by every iteration is kept by the loop. *)
Lemma runFamilies_invariant (P : RunState -> Prop) :
  (forall s f, P s -> P (runFamily s f)) ->
  forall fs s, P s -> P (runFamilies fs s).
Proof.
  intros Hstep fs. induction fs as [|f fs IH]; intros s Hs.
  - exact Hs.
  - rewrite runFamilies_cons. apply IH, Hstep, Hs.
Qed.

(** A preorder that every iteration respects relates the ends of the loop. *)
Lemma runFamilies_preorder (R : RunState -> RunState -> Prop) :
  (forall s, R s s) ->
  (forall s1 s2 s3, R s1 s2 -> R s2 s3 -> R s1 s3) ->
  (forall s f, R s (runFamily s f)) ->
  forall fs s, R s (runFamilies fs s).
Proof.
  intros Hrefl Htrans Hstep fs. induction fs as [|f fs IH]; intros s.
  - apply Hrefl.
  - rewrite runFamilies_cons. eapply Htrans; [apply Hstep | apply IH].
Qed.

(** Case analysis on the three answers of the environment in one iteration. *)
Ltac iteration s f :=
  unfold runFamily;
  destruct (FamilyStarted (GetType f) (world s)) as [[?err|] ?w1];
  [ | destruct (Run f (familyResults s) _) as [[|?ret [?err|]] ?w2];
      match goal with
      | |- context [FamilyFinished ?r ?w] => destruct (FamilyFinished r w) as [?fin ?w3]
      end ];
  cbn [oneOrMoreFamilyFailed errors familyResults world trace].

Lemma attempted_app (t u : list Event) : attempted (t ++ u) = attempted t ++ attempted u.
Proof.
  induction t as [|e t IH]; [reflexivity|].
  destruct e; cbn [attempted app]; rewrite IH; reflexivity.
Qed.

Lemma launched_app (t u : list Event) : launched (t ++ u) = launched t ++ launched u.
Proof.
  induction t as [|e t IH]; [reflexivity|].
  destruct e; cbn [launched app]; rewrite IH; reflexivity.
Qed.

Lemma succeededResults_app (t u : list Event) :
  succeededResults (t ++ u) = succeededResults t ++ succeededResults u.
Proof.
  induction t as [|e t IH]; [reflexivity|].
  destruct e as [| | |r| |]; cbn [succeededResults app]; try exact IH.
  destruct (Err r); rewrite IH; reflexivity.
Qed.

(** The history of the loop is the histories of its iterations, one
    after the other and one per family. *)
Lemma trace_segments (fs : list Family) (s : RunState) :
  exists segs, trace (runFamilies fs s) = trace s ++ concat segs
               /\ Forall2 SegmentOf fs segs.
Proof.
  revert s. induction fs as [|f fs IH]; intros s.
  - exists []. cbn. rewrite app_nil_r. split; [reflexivity | constructor].
  - rewrite runFamilies_cons.
    destruct (IH (runFamily s f)) as (segs & Htr & Hsegs).
    assert (Hone : exists seg, trace (runFamily s f) = trace s ++ seg /\ SegmentOf f seg).
    { iteration s f; eexists; (split; [reflexivity | constructor]). }
    destruct Hone as (seg & Hseg & Hof).
    exists (seg :: segs). split; [| constructor; assumption].
    rewrite Htr, Hseg. cbn [concat]. rewrite <- app_assoc. reflexivity.
Qed.

Lemma attempted_segment (f : Family) (seg : list Event) :
  SegmentOf f seg -> attempted seg = [GetType f].
Proof. intros H; destruct H; reflexivity. Qed.


Lemma attempted_segments (fs : list Family) (segs : list (list Event)) :
  Forall2 SegmentOf fs segs -> attempted (concat segs) = map GetType fs.
Proof.
  induction 1 as [|f seg fs segs Hseg _ IH]; [reflexivity|].
  cbn [concat map]. rewrite attempted_app, IH, (attempted_segment f seg Hseg). reflexivity.
Qed.


(* --------------------------------------------------------------------- *)
(** ** What the loop keeps *)
(* --------------------------------------------------------------------- *)

Lemma existsb_isRunFailure_app (t u : list Event) :
  existsb isRunFailure (t ++ u) = existsb isRunFailure t || existsb isRunFailure u.
Proof. apply existsb_app. Qed.

Definition storeMatchesTrace (s : RunState) : Prop :=
  familyResults s = succeededResults (trace s).

Definition flagMatchesTrace (s : RunState) : Prop :=
  oneOrMoreFamilyFailed s = existsb isRunFailure (trace s).

Definition errorsAreNotifications (s : RunState) : Prop :=
  Forall isNotificationError (errors s).

Lemma storeMatchesTrace_step (s : RunState) (f : Family) :
  storeMatchesTrace s -> storeMatchesTrace (runFamily s f).
Proof.
  unfold storeMatchesTrace. intros H.
  iteration s f; rewrite succeededResults_app; cbn; rewrite <- H;
    unfold SetResults; rewrite ?app_nil_r; reflexivity.
Qed.

Lemma flagMatchesTrace_step (s : RunState) (f : Family) :
  flagMatchesTrace s -> flagMatchesTrace (runFamily s f).
Proof.
  unfold flagMatchesTrace. intros H.
  iteration s f; rewrite existsb_isRunFailure_app; cbn; rewrite <- H;
    rewrite ?orb_true_r, ?orb_false_r; reflexivity.
Qed.

Lemma appendFinishedError_notifications (errs : list error) (res : option error) :
  Forall isNotificationError errs -> Forall isNotificationError (appendFinishedError errs res).
Proof.
  intros H. destruct res as [err|]; cbn; [|exact H].
  apply Forall_app; split; [exact H|].
  constructor; [right; eexists; reflexivity | constructor].
Qed.

Lemma errorsAreNotifications_step (s : RunState) (f : Family) :
  errorsAreNotifications s -> errorsAreNotifications (runFamily s f).
Proof.
  unfold errorsAreNotifications. intros H.
  iteration s f; try (apply appendFinishedError_notifications; exact H).
  apply Forall_app; split; [exact H|].
  constructor; [left; eexists; reflexivity | constructor].
Qed.



Lemma familyResults_prefix_step (s : RunState) (f : Family) :
  familyResults s `prefix_of` familyResults (runFamily s f).
Proof.
  iteration s f; try reflexivity.
  unfold SetResults. apply prefix_app_r. reflexivity.
Qed.


Lemma familyResults_prefix (fs : list Family) (s : RunState) :
  familyResults s `prefix_of` familyResults (runFamilies fs s).
Proof.
  revert fs s.
  apply (runFamilies_preorder (fun a b => familyResults a `prefix_of` familyResults b)).
  - intros; reflexivity.
  - intros s1 s2 s3 H12 H23. etransitivity; eassumption.
  - apply familyResults_prefix_step.
Qed.

Lemma failed_stays_step (s : RunState) (f : Family) :
  oneOrMoreFamilyFailed s = true -> oneOrMoreFamilyFailed (runFamily s f) = true.
Proof. intros H. iteration s f; auto. Qed.

Lemma failed_stays (fs : list Family) (s : RunState) :
  oneOrMoreFamilyFailed s = true -> oneOrMoreFamilyFailed (runFamilies fs s) = true.
Proof. apply (runFamilies_invariant (fun s => oneOrMoreFamilyFailed s = true)), failed_stays_step. Qed.

Lemma runLoop_storeMatchesTrace (m : Manager) (w : World) : storeMatchesTrace (runLoop m w).
Proof. unfold runLoop. apply (runFamilies_invariant storeMatchesTrace); [apply storeMatchesTrace_step | reflexivity]. Qed.

Lemma runLoop_flagMatchesTrace (m : Manager) (w : World) : flagMatchesTrace (runLoop m w).
Proof. unfold runLoop. apply (runFamilies_invariant flagMatchesTrace); [apply flagMatchesTrace_step | reflexivity]. Qed.

Lemma runLoop_errorsAreNotifications (m : Manager) (w : World) :
  errorsAreNotifications (runLoop m w).
Proof.
  unfold runLoop.
  apply (runFamilies_invariant errorsAreNotifications); [apply errorsAreNotifications_step | constructor].
Qed.

(** No notification error reads as the generic error. *)
Lemma notification_is_not_generic (e : error) :
  isNotificationError e -> e <> atLeastOneFailedMsg.
Proof. intros [[err ->] | [err ->]]; discriminate. Qed.

Lemma Manager_Run_nonempty_of_failed (m : Manager) (w : World) :
  oneOrMoreFamilyFailed (runLoop m w) = true -> Manager_Run m w <> [].
Proof.
  intros H. unfold Manager_Run. rewrite H.
  destruct (errors (runLoop m w)); discriminate.
Qed.


Lemma attempted_runFamilies (fs : list Family) (s : RunState) :
  attempted (trace (runFamilies fs s)) = attempted (trace s) ++ map GetType fs.
Proof.
  destruct (trace_segments fs s) as (segs & -> & Hsegs).
  rewrite attempted_app, (attempted_segments fs segs Hsegs). reflexivity.
Qed.


Lemma New_families (c : Config) :
  families (New c)
  = map (fun ft => mkFamily ft (configOf c ft)) (List.filter (enabledIn c) fixedOrder).
Proof.
  destruct c as [[e1 p1] [e2 p2] [e3 p3] [e4 p4] [e5 p5] [e6 p6] [e7 p7]].
  unfold New, enabledIn; cbn [Enabled cfgSBOM cfgVulnerabilities cfgSecrets cfgRootkits cfgMalware
    cfgMisconfiguration cfgExploits configOf fixedOrder List.filter].
  destruct e1, e2, e3, e4, e5, e6, e7; reflexivity.
Qed.

Lemma New_types (c : Config) :
  map GetType (families (New c)) = List.filter (enabledIn c) fixedOrder.
Proof.
  rewrite New_families, map_map. cbn [GetType]. apply map_id.
Qed.

(* --------------------------------------------------------------------- *)
(** ** The specification's statements about the manager *)
(* --------------------------------------------------------------------- *)

(** C1 (as amended).  After [Manager.Run] has attempted all families, the
    returned list is the collected notification errors followed by the one
    generic "at least one family failed to run" error exactly when some
    family's [Run] returned an error or some family was aborted by the
    cancellation of the context; otherwise the generic error is absent.  A
    failed [FamilyStarted] notification is among the collected errors and
    does not count as a failed family. *)
Theorem generic_error_iff_run_failure (m : Manager) (w : World) :
  let s := runLoop m w in
  Manager_Run m w
  = errors s ++ (if existsb isRunFailure (trace s) then [atLeastOneFailedMsg] else [])
  /\ Forall isNotificationError (errors s)
  /\ (In atLeastOneFailedMsg (Manager_Run m w) <-> existsb isRunFailure (trace s) = true)
  /\ count_occ string_dec (Manager_Run m w) atLeastOneFailedMsg
     = (if existsb isRunFailure (trace s) then 1 else 0)%nat.
Proof.
  intros s.
  pose proof (runLoop_flagMatchesTrace m w) as Hflag.
  pose proof (runLoop_errorsAreNotifications m w) as Hnot.
  unfold flagMatchesTrace, errorsAreNotifications in *. fold s in Hflag, Hnot.
  assert (Hno : ~ In atLeastOneFailedMsg (errors s)).
  { intros Hin. rewrite List.Forall_forall in Hnot.
    apply (notification_is_not_generic _ (Hnot _ Hin)). reflexivity. }
  assert (Hrun : Manager_Run m w
                 = errors s ++ (if existsb isRunFailure (trace s) then [atLeastOneFailedMsg] else [])).
  { unfold Manager_Run. fold s. rewrite Hflag.
    destruct (existsb isRunFailure (trace s)); [reflexivity | rewrite app_nil_r; reflexivity]. }
  split; [exact Hrun|]. split; [exact Hnot|]. rewrite Hrun. split.
  - rewrite in_app_iff. destruct (existsb isRunFailure (trace s)); cbn.
    + split; auto.
    + split; [intros [H | []]; contradiction | discriminate].
  - rewrite count_occ_app. rewrite (proj1 (count_occ_not_In string_dec _ _) Hno).
    destruct (existsb isRunFailure (trace s)); cbn; [|reflexivity].
    destruct (string_dec atLeastOneFailedMsg atLeastOneFailedMsg); [reflexivity | contradiction].
Qed.


(** C3.  Throughout one [Manager.Run], the store holds exactly the results
    received with a nil error, each stored between its receipt and its
    [FamilyFinished] notification; an iteration adds its family's result
    when [FamilyStarted] succeeded and [Run] completed with a nil error and
    otherwise leaves the store as it was; what earlier families stored
    stays, unaltered, as a prefix of the store; and when the context is
    cancelled while family K runs, K stores nothing, the results of the
    families before K remain and the returned error list is not empty. *)
Theorem results_store_invariant (m : Manager) (w : World) :
  let s := runLoop m w in
  familyResults s = succeededResults (trace s)
  /\ (exists segs, trace s = concat segs /\ Forall2 SegmentOf (families m) segs)
  /\ (forall pre k post, families m = pre ++ k :: post ->
      let sK := runFamilies pre (initState w) in
      let sK' := runFamily sK k in
      ((exists w1 ret w2,
           FamilyStarted (GetType k) (world sK) = (None, w1)
           /\ Run k (familyResults sK) w1 = (Received ret None, w2)
           /\ familyResults sK' = SetResults (familyResults sK) ret)
       \/ ((forall w1 ret w2,
              FamilyStarted (GetType k) (world sK) = (None, w1) ->
              Run k (familyResults sK) w1 <> (Received ret None, w2))
           /\ familyResults sK' = familyResults sK))
      /\ familyResults sK `prefix_of` familyResults sK'
      /\ familyResults sK' `prefix_of` familyResults s
      /\ (forall w1 w2,
            FamilyStarted (GetType k) (world sK) = (None, w1) ->
            Run k (familyResults sK) w1 = (CtxDone, w2) ->
            familyResults sK' = familyResults sK
            /\ familyResults sK `prefix_of` familyResults s
            /\ Manager_Run m w <> [])).
Proof.
  intros s. split; [apply runLoop_storeMatchesTrace|]. split.
  { destruct (trace_segments (families m) (initState w)) as (segs & Htr & Hsegs).
    exists segs. split; [exact Htr | exact Hsegs]. }
  intros pre k post Hfs sK sK'.
  assert (Hs : s = runFamilies post sK').
  { unfold s, runLoop. rewrite Hfs, runFamilies_app, runFamilies_cons. reflexivity. }
  assert (Hstep : familyResults sK `prefix_of` familyResults sK')
    by apply familyResults_prefix_step.
  assert (Hrest : familyResults sK' `prefix_of` familyResults s)
    by (rewrite Hs; apply familyResults_prefix).
  split; [| split; [exact Hstep | split; [exact Hrest|]]].
  - unfold sK'. unfold runFamily.
    destruct (FamilyStarted (GetType k) (world sK)) as [[err|] w1] eqn:Hst.
    + right. split; [intros ? ? ? [=] | reflexivity].
    + destruct (Run k (familyResults sK) w1) as [[|ret [err|]] w2] eqn:Hrun.
      * destruct (FamilyFinished _ w2) as [fin w3]. right.
        split; [| reflexivity]. intros w1' ret' w2' [= <-]. rewrite Hrun. discriminate.
      * destruct (FamilyFinished _ w2) as [fin w3]. right.
        split; [| reflexivity]. intros w1' ret' w2' [= <-]. rewrite Hrun. discriminate.
      * destruct (FamilyFinished _ w2) as [fin w3]. left.
        exists w1, ret, w2. repeat split; assumption || reflexivity.
  - intros w1 w2 Hst Hrun.
    assert (Hflag : oneOrMoreFamilyFailed sK' = true /\ familyResults sK' = familyResults sK).
    { unfold sK', runFamily. rewrite Hst, Hrun.
      destruct (FamilyFinished _ w2) as [fin w3]. split; reflexivity. }
    destruct Hflag as [Hflag Hsame]. split; [exact Hsame|]. split.
    + etransitivity; eassumption.
    + apply Manager_Run_nonempty_of_failed. fold s. rewrite Hs. apply failed_stays, Hflag.
Qed.


(* --------------------------------------------------------------------- *)
(** ** Further properties of the manager *)
(* --------------------------------------------------------------------- *)

(** The families whose [FamilyFinished] notification was made, in order. *)
Fixpoint finished (t : list Event) : list FamilyType :=
  match t with
  | [] => []
  | EvFamilyFinished r _ :: t' => FamilyType_ r :: finished t'
  | _ :: t' => finished t'
  end.


(** A notification that returned an error. *)
Definition isFailedNotification (e : Event) : bool :=
  match e with
  | EvFamilyStarted _ (Some _) => true
  | EvFamilyFinished _ (Some _) => true
  | _ => false
  end.






Lemma errors_count_step (s : RunState) (f : Family) :
  length (errors s) = length (List.filter isFailedNotification (trace s)) ->
  length (errors (runFamily s f))
  = length (List.filter isFailedNotification (trace (runFamily s f))).
Proof.
  intros H.
  iteration s f; rewrite List.filter_app, !length_app; cbn [List.filter isFailedNotification];
    try (destruct fin; cbn [appendFinishedError List.filter isFailedNotification length];
         rewrite ?length_app; cbn [length]; lia).
  cbn [length]. lia.
Qed.

Lemma errors_count (m : Manager) (w : World) :
  length (errors (runLoop m w))
  = length (List.filter isFailedNotification (trace (runLoop m w))).
Proof.
  unfold runLoop.
  apply (runFamilies_invariant
           (fun s => length (errors s) = length (List.filter isFailedNotification (trace s)))).
  - apply errors_count_step.
  - reflexivity.
Qed.

Lemma errors_grow_by_one (s : RunState) (f : Family) :
  (length (errors (runFamily s f)) <= S (length (errors s)))%nat.
Proof.
  iteration s f; try (destruct fin; cbn [appendFinishedError]); rewrite ?length_app; cbn [length]; lia.
Qed.

Lemma errors_bound (fs : list Family) (s : RunState) :
  (length (errors (runFamilies fs s)) <= length (errors s) + length fs)%nat.
Proof.
  revert s. induction fs as [|f fs IH]; intros s; [cbn; lia|].
  rewrite runFamilies_cons. specialize (IH (runFamily s f)).
  pose proof (errors_grow_by_one s f). cbn [length]. lia.
Qed.

(** X2.  The returned list has one entry for every notification that
    failed, and one more, the generic error, when a family failed or was
    aborted; a family contributes at most one notification error, so the
    list is never longer than the number of families plus one. *)
Theorem error_list_length (m : Manager) (w : World) :
  length (Manager_Run m w)
  = (length (List.filter isFailedNotification (trace (runLoop m w)))
     + (if existsb isRunFailure (trace (runLoop m w)) then 1 else 0))%nat
  /\ (length (Manager_Run m w) <= length (families m) + 1)%nat.
Proof.
  pose proof (runLoop_flagMatchesTrace m w) as Hflag. unfold flagMatchesTrace in Hflag.
  pose proof (errors_count m w) as Hcount.
  pose proof (errors_bound (families m) (initState w)) as Hbound.
  fold (runLoop m w) in Hbound. cbn [initState errors length] in Hbound.
  unfold Manager_Run. rewrite Hflag.
  destruct (existsb isRunFailure (trace (runLoop m w)));
    rewrite ?length_app; cbn [length]; lia.
Qed.

Lemma all_succeeded_segments (fs : list Family) (segs : list (list Event)) :
  Forall2 SegmentOf fs segs ->
  existsb isRunFailure (concat segs) = false ->
  List.filter isFailedNotification (concat segs) = [] ->
  launched (concat segs) = map GetType fs
  /\ length (succeededResults (concat segs)) = length fs.
Proof.
  induction 1 as [|f seg fs segs Hseg _ IH]; intros Hrun Hnot; [split; reflexivity|].
  cbn [concat] in *. rewrite existsb_app in Hrun. rewrite List.filter_app in Hnot.
  apply orb_false_iff in Hrun as [Hrun1 Hrun2].
  apply app_eq_nil in Hnot as [Hnot1 Hnot2].
  destruct (IH Hrun2 Hnot2) as [IHl IHr].
  rewrite launched_app, succeededResults_app, length_app, IHl, IHr.
  destruct Hseg as [err | res | ret err res | ret res]; cbn in Hrun1, Hnot1; try discriminate.
  split; reflexivity.
Qed.

(** X3.  An empty error list means full success, and only that:
    [Manager.Run] returns no error exactly when no notification failed and
    no family failed or was aborted; and then the [Run] of every family
    of the list was launched, in order, and the store holds one result
    per family. *)
Theorem empty_error_list_iff_full_success (m : Manager) (w : World) :
  (Manager_Run m w = []
   <-> existsb isRunFailure (trace (runLoop m w)) = false
       /\ List.filter isFailedNotification (trace (runLoop m w)) = [])
  /\ (Manager_Run m w = [] ->
      launched (trace (runLoop m w)) = map GetType (families m)
      /\ length (familyResults (runLoop m w)) = length (families m)).
Proof.
  pose proof (runLoop_flagMatchesTrace m w) as Hflag. unfold flagMatchesTrace in Hflag.
  pose proof (errors_count m w) as Hcount.
  assert (Hiff : Manager_Run m w = []
                 <-> existsb isRunFailure (trace (runLoop m w)) = false
                     /\ List.filter isFailedNotification (trace (runLoop m w)) = []).
  { unfold Manager_Run. rewrite Hflag.
    destruct (existsb isRunFailure (trace (runLoop m w))).
    - split; [| intros [[=] _]].
      intros H. destruct (errors (runLoop m w)); discriminate.
    - split.
      + intros H. rewrite H in Hcount. cbn in Hcount. split; [reflexivity|].
        destruct (List.filter isFailedNotification (trace (runLoop m w))); [reflexivity|discriminate].
      + intros [_ H]. rewrite H in Hcount. cbn in Hcount.
        destruct (errors (runLoop m w)); [reflexivity | discriminate]. }
  split; [exact Hiff|].
  intros Hnil. apply Hiff in Hnil as [Hrun Hnot].
  rewrite (runLoop_storeMatchesTrace m w).
  unfold runLoop in *.
  destruct (trace_segments (families m) (initState w)) as (segs & Htr & Hsegs).
  rewrite Htr in *. cbn [initState trace app] in *.
  apply all_succeeded_segments; assumption.
Qed.

(** X4.  [New] never builds two families of one type, so in a run of the
    manager it builds no family type is started twice and the store ends
    with at most seven results. *)
Theorem New_builds_each_family_once (c : Config) (w : World) :
  NoDup (map GetType (families (New c)))
  /\ NoDup (attempted (trace (runLoop (New c) w)))
  /\ (length (familyResults (runLoop (New c) w)) <= 7)%nat.
Proof.
  assert (Hnodup : NoDup (List.filter (enabledIn c) fixedOrder)).
  { apply NoDup_ListNoDup, List.NoDup_filter, NoDup_ListNoDup.
    apply (bool_decide_unpack _). vm_compute. exact I. }
  assert (Hatt : attempted (trace (runLoop (New c) w)) = List.filter (enabledIn c) fixedOrder).
  { unfold runLoop. rewrite attempted_runFamilies.
    unfold initState; cbn [trace attempted app]. apply New_types. }
  split; [rewrite New_types; exact Hnodup|]. split; [rewrite Hatt; exact Hnodup|].
  rewrite (runLoop_storeMatchesTrace (New c) w).
  unfold runLoop.
  destruct (trace_segments (families (New c)) (initState w)) as (segs & Htr & Hsegs).
  rewrite Htr. cbn [initState trace app].
  assert (Hle : forall fs ss, Forall2 SegmentOf fs ss ->
                              (length (succeededResults (concat ss)) <= length fs)%nat).
  { induction 1 as [|f seg fs ss Hseg _ IH]; [cbn; lia|].
    cbn [concat]. rewrite succeededResults_app, length_app. cbn [length].
    destruct Hseg; cbn; lia. }
  specialize (Hle _ _ Hsegs).
  assert (Hlen : (length (families (New c)) <= 7)%nat).
  { rewrite <- (length_map GetType), New_types.
    pose proof (List.filter_length_le (enabledIn c) fixedOrder) as H. cbn in H. exact H. }
  lia.
Qed.

End Run.

Arguments FamilyResult : clear implicits.
Arguments Selected : clear implicits.
Arguments Results : clear implicits.

(* --------------------------------------------------------------------- *)
(** ** A concrete run *)
(* --------------------------------------------------------------------- *)

(** A notifier that cannot record the start of Secrets, a rootkit scanner
    that fails and a context cancelled while Malware runs.  The world
    counts the notifications made. *)
Definition demoName (ft : FamilyType) : string :=
  match ft with
  | SBOM => "sbom" | Vulnerabilities => "vulnerabilities" | Secrets => "secrets"
  | Rootkits => "rootkits" | Malware => "malware" | Misconfiguration => "misconfiguration"
  | Exploits => "exploits"
  end.

Definition demoStarted (ft : FamilyType) (w : nat) : option error * nat :=
  (match ft with Secrets => Some "notifier unreachable" | _ => None end, S w).

Definition demoFinished (r : FamilyResult string) (w : nat) : option error * nat := (None, S w).

Definition demoRun (f : Family) (rs : Results string) (w : nat) : Selected string * nat :=
  match GetType f with
  | Malware => (CtxDone, w)
  | Rootkits => (Received None (Some "chkrootkit exited with status 1"), w)
  | ft => (Received (Some (demoName ft +:+ " results")) None, w)
  end.

Definition on : FamilyConfig := mkFamilyConfig true "".
Definition off : FamilyConfig := mkFamilyConfig false "".

Definition allEnabled : Config := mkConfig on on on on on on on.
Definition sbomAndSecrets : Config := mkConfig on off on off off off off.

Definition demoLoop (c : Config) : RunState :=
  runLoop demoStarted demoFinished demoRun demoName (New c) 0%nat.

Definition demoManagerRun (c : Config) : list error :=
  Manager_Run demoStarted demoFinished demoRun demoName (New c) 0%nat.

(** C1, as stated, fails: with SBOM and Secrets enabled and a notifier
    that cannot record the start of Secrets, Secrets is skipped because
    its [FamilyStarted] notification failed, and the returned list holds
    that notification's error alone, without the generic error. *)
Lemma skipped_family_gets_no_generic_error :
  existsb isSkipped (trace (demoLoop sbomAndSecrets)) = true
  /\ existsb isRunFailure (trace (demoLoop sbomAndSecrets)) = false
  /\ demoManagerRun sbomAndSecrets = ["family started notification failed: notifier unreachable"]
  /\ ~ In atLeastOneFailedMsg (demoManagerRun sbomAndSecrets).
Proof.
  repeat split; try reflexivity.
  vm_compute. intros [H | []]. discriminate H.
Qed.

(** With every family enabled: SBOM and Vulnerabilities store their
    results, Secrets is skipped, Rootkits fails, and the context is
    cancelled while Malware runs; the two results stored before are still
    there at the end and the returned list is not empty. *)
Lemma results_store_invariant_witness :
  familyResults (runFamilies demoStarted demoFinished demoRun demoName
                   [sbom_New on; vulnerabilities_New on; secrets_New on; rootkits_New on;
                    malware_New on]
                   (initState 0%nat))
  = [Some "sbom results"; Some "vulnerabilities results"]
  /\ [Some "sbom results"; Some "vulnerabilities results"]
       `prefix_of` familyResults (demoLoop allEnabled)
  /\ demoManagerRun allEnabled <> [].
Proof.
  destruct (results_store_invariant demoStarted demoFinished demoRun demoName (New allEnabled) 0%nat)
    as (_ & _ & Hk).
  specialize (Hk [sbom_New on; vulnerabilities_New on; secrets_New on; rootkits_New on]
                 (malware_New on)
                 [misconfiguration_New on; exploits_New on] eq_refl).
  destruct Hk as (_ & _ & _ & Hcancel).
  exact (Hcancel 8%nat 8%nat eq_refl eq_refl).
Defined.


(** With only SBOM and Vulnerabilities enabled nothing fails: the list is
    empty, both families were run and both results are stored. *)
Definition sbomAndVulnerabilities : Config := mkConfig on on off off off off off.

Lemma empty_error_list_iff_full_success_witness :
  demoManagerRun sbomAndVulnerabilities = []
  /\ launched (trace (demoLoop sbomAndVulnerabilities)) = [SBOM; Vulnerabilities]
  /\ length (familyResults (demoLoop sbomAndVulnerabilities)) = 2%nat.
Proof.
  assert (H : demoManagerRun sbomAndVulnerabilities = []) by reflexivity.
  split; [exact H|].
  exact (proj2 (empty_error_list_iff_full_success demoStarted demoFinished demoRun demoName
                  (New sbomAndVulnerabilities) 0%nat) H).
Defined.

End Families.

(* ===================================================================== *)
(** * Package azure (runtime_scan/pkg/provider/azure) *)
(* ===================================================================== *)

Module Azure.

(** Modelled from the spec: the [provider] package ([FatalErrorf],
    [RetryableErrorf]) is not in the sources; errors follow the taxonomy
    of the error-handling design.  A retryable error carries its estimated
    wait, in nanoseconds as [time.Duration] does.  [Errorf] is [fmt.Errorf]
    of a text alone, [ErrorfW] with a [%w] operand (the wrapped error stays
    reachable) and [ErrorfV] with a [%v] operand; [External] is an error
    made outside this package. *)
Inductive Error : Type :=
  | External (msg : string)
  | Errorf (msg : string)
  | ErrorfW (msg : string) (cause : Error)
  | ErrorfV (msg : string) (cause : Error)
  | FatalError (err : Error)
  | RetryableError (after : Z) (err : Error).

Definition minute : Z := 60 * 1000000000.
Definition VMCreateEstimateProvisionTime : Z := 2 * minute.
Definition VMDiskAttachEstimateTime : Z := 2 * minute.

Definition instanceIDPartsLength : nat := 9.
Definition resourceGroupPartIdx : nat := 4.
Definition vmNamePartIdx : nat := 8.

(** ** The SDK's and the API's data, as far as the provider reads it.
    Pointer fields are read as the values they point to: the provider
    dereferences them without a nil check, the values of the
    [map[string]*string] of tags among them ([*val] in the tag filters and
    in [convertTags]). *)

Record Tag : Type := mkTag { Key : string; Value : string }.

Record ImageReference : Type := mkImageReference {
  Publisher : string; Offer : string; SKU : string; Version : string
}.

(** A [*string] compared by [==]: the address decides, not the text. *)
Record StringPtr : Type := mkStringPtr { addr : positive; deref : string }.

Record DataDisk : Type := mkDataDisk {
  ddCreateOption : string; ddLun : Z; ddManagedDiskID : StringPtr; ddName : string
}.

Record OSDisk : Type := mkOSDisk {
  osdName : string; osdCreateOption : string; osdDeleteOption : string;
  osdCaching : string; osdStorageAccountType : string; osdOSType : string
}.

Record SSHPublicKey : Type := mkSSHPublicKey { sshPath : string; sshKeyData : string }.

Record OSProfile : Type := mkOSProfile {
  ospComputerName : string; ospAdminUsername : string;
  ospDisablePasswordAuthentication : bool; ospSSHPublicKeys : list SSHPublicKey
}.

Record VirtualMachine : Type := mkVirtualMachine {
  vmID : string;
  vmName : string;
  vmType : string;
  vmLocation : string;
  vmTags : gmap string string;
  vmIdentityType : string;
  vmSize : string;
  vmImageReference : option ImageReference;
  vmOSDisk : OSDisk;
  vmDataDisks : list DataDisk;
  vmOSProfile : OSProfile;
  vmNetworkInterfaces : list string;
  vmUserData : string;
  vmTimeCreated : Z;
  vmProvisioningState : string
}.

Record Disk : Type := mkDisk { diskID : StringPtr; diskName : string; diskState : string }.

Record Interface : Type := mkInterface { nicID : string }.

Record AzureScanScope : Type := mkAzureScanScope {
  AllResourceGroups : option bool;
  InstanceTagExclusion : option (list Tag);
  InstanceTagSelector : option (list Tag);
  ResourceGroups : option (list string)
}.

Record VMInfo : Type := mkVMInfo {
  ObjectType : string;
  InstanceProvider : string;
  InstanceID : string;
  Image : string;
  InstanceType : string;
  LaunchTime : Z;
  Location : string;
  Platform : string;
  SecurityGroups : list string;
  Tags : list Tag
}.

(* --------------------------------------------------------------------- *)
(** ** Tag filtering *)
(* --------------------------------------------------------------------- *)

(** The loop shared by [hasIncludeTags] and [hasExcludeTags]:
    [for _, tag := range *tags { ... return false ... }; return true]. *)
Fixpoint rangeTags (vmTags : gmap string string) (tags : list Tag) : bool :=
  match tags with
  | [] => true
  | tag :: rest =>
      match vmTags !! Key tag with
      | None => false
      | Some val => if String.eqb val (Value tag) then rangeTags vmTags rest else false
      end
  end.

Definition hasIncludeTags (vm : VirtualMachine) (tags : option (list Tag)) : bool :=
  match tags with
  | None => true
  | Some tags =>
      if Nat.eqb (length tags) 0 then true
      else if Nat.eqb (size (vmTags vm)) 0 then false
      else rangeTags (vmTags vm) tags
  end.

Definition hasExcludeTags (vm : VirtualMachine) (tags : option (list Tag)) : bool :=
  match tags with
  | None => false
  | Some tags =>
      if Nat.eqb (length tags) 0 then false
      else if Nat.eqb (size (vmTags vm)) 0 then false
      else rangeTags (vmTags vm) tags
  end.

(** Go ranges over the map in an unspecified order; [map_to_list] fixes one. *)
Definition convertTags (tags : gmap string string) : list Tag :=
  map (fun kv => mkTag (fst kv) (snd kv)) (map_to_list tags).

Definition createImageURN (reference : option ImageReference) : string :=
  match reference with
  | None => ""
  | Some r => Publisher r +:+ "/" +:+ Offer r +:+ "/" +:+ SKU r +:+ "/" +:+ Version r
  end.

Section Discovery.

(** [models.TargetType] and its generated [FromVMInfo], which are not in
    the sources. *)
Context {TargetType : Type}.
Variable FromVMInfo : VMInfo -> TargetType * option Error.

Definition getVMInfoFromVirtualMachine (vm : VirtualMachine) : TargetType * option Error :=
  let '(targetType, err) :=
    FromVMInfo (mkVMInfo "VMInfo" "Azure" (vmID vm) (createImageURN (vmImageReference vm))
                         (vmType vm) (vmTimeCreated vm) (vmLocation vm) (osdOSType (vmOSDisk vm))
                         [] (convertTags (vmTags vm))) in
  match err with
  | Some err => (targetType, Some (ErrorfW "failed to create TargetType from VMInfo: " err))
  | None => (targetType, None)
  end.

(** The loop of [processVirtualMachineListIntoTargetTypes], with [ret] so far. *)
Fixpoint processLoop (vms : list VirtualMachine) (azureScanScope : AzureScanScope)
    (ret : list TargetType) : list TargetType * option Error :=
  match vms with
  | [] => (ret, None)
  | vm :: rest =>
      if negb (hasIncludeTags vm (InstanceTagSelector azureScanScope))
      then processLoop rest azureScanScope ret
      else if hasExcludeTags vm (InstanceTagExclusion azureScanScope)
      then processLoop rest azureScanScope ret
      else
        let '(info, err) := getVMInfoFromVirtualMachine vm in
        match err with
        | Some err => ([], Some (ErrorfW "unable to convert instance to vminfo: " err))
        | None => processLoop rest azureScanScope (ret ++ [info])
        end
  end.

Definition processVirtualMachineListIntoTargetTypes
    (vmList : list VirtualMachine) (azureScanScope : AzureScanScope)
    : list TargetType * option Error :=
  processLoop vmList azureScanScope [].

(** The VM carries every key/value tag of the selector. *)
Definition carriesAll (vm : VirtualMachine) (tags : list Tag) : Prop :=
  forall tag, In tag tags -> vmTags vm !! Key tag = Some (Value tag).

(** The VMs of a page that pass the filter, in the page's order. *)
Definition inScope (azureScanScope : AzureScanScope) (vm : VirtualMachine) : bool :=
  hasIncludeTags vm (InstanceTagSelector azureScanScope)
  && negb (hasExcludeTags vm (InstanceTagExclusion azureScanScope)).

Lemma rangeTags_carriesAll (vm : VirtualMachine) (tags : list Tag) :
  rangeTags (vmTags vm) tags = true <-> carriesAll vm tags.
Proof.
  unfold carriesAll. induction tags as [|tag rest IH]; cbn [rangeTags].
  - split; [intros _ tag [] | reflexivity].
  - destruct (vmTags vm !! Key tag) as [val|] eqn:Hlk.
    + destruct (String.eqb_spec val (Value tag)) as [-> | Hne].
      * rewrite IH. split.
        -- intros H t [<- | Hin]; [exact Hlk | apply H, Hin].
        -- intros H t Hin. apply H. right. exact Hin.
      * split; [discriminate|]. intros H.
        specialize (H tag (or_introl eq_refl)). congruence.
    + split; [discriminate|]. intros H.
      specialize (H tag (or_introl eq_refl)). congruence.
Qed.

(** A VM without tags carries no non-empty selector. *)
Lemma carriesAll_no_tags (vm : VirtualMachine) (tag : Tag) (rest : list Tag) :
  size (vmTags vm) = 0%nat -> ~ carriesAll vm (tag :: rest).
Proof.
  intros Hsize H. apply map_size_empty_inv in Hsize.
  specialize (H tag (or_introl eq_refl)). rewrite Hsize, lookup_empty in H. discriminate.
Qed.

Lemma hasIncludeTags_spec (vm : VirtualMachine) (tags : option (list Tag)) :
  hasIncludeTags vm tags = true
  <-> tags = None \/ tags = Some [] \/ exists l, tags = Some l /\ carriesAll vm l.
Proof.
  destruct tags as [[|tag rest]|]; cbn.
  - split; auto.
  - destruct (Nat.eqb_spec (size (vmTags vm)) 0) as [Hz | Hnz].
    + split; [discriminate|]. intros [H | [H | (l & [= <-] & H)]]; try discriminate.
      exfalso. exact (carriesAll_no_tags vm tag rest Hz H).
    + rewrite (rangeTags_carriesAll vm (tag :: rest)). split.
      * intros H. right. right. exists (tag :: rest). auto.
      * intros [H | [H | (l & [= <-] & H)]]; try discriminate. exact H.
  - split; auto.
Qed.

Lemma hasExcludeTags_spec (vm : VirtualMachine) (tags : option (list Tag)) :
  hasExcludeTags vm tags = true
  <-> exists l, tags = Some l /\ l <> [] /\ carriesAll vm l.
Proof.
  destruct tags as [[|tag rest]|]; cbn.
  - split; [discriminate|]. intros (l & [= <-] & Hne & _). contradiction.
  - destruct (Nat.eqb_spec (size (vmTags vm)) 0) as [Hz | Hnz].
    + split; [discriminate|]. intros (l & [= <-] & _ & H).
      exfalso. exact (carriesAll_no_tags vm tag rest Hz H).
    + rewrite (rangeTags_carriesAll vm (tag :: rest)). split.
      * intros H. exists (tag :: rest). repeat split; [discriminate | exact H].
      * intros (l & [= <-] & _ & H). exact H.
  - split; [discriminate|]. intros (l & [=] & _).
Qed.

Lemma processLoop_cons (vm : VirtualMachine) (rest : list VirtualMachine)
    (scope : AzureScanScope) (ret : list TargetType) :
  processLoop (vm :: rest) scope ret
  = if inScope scope vm
    then match getVMInfoFromVirtualMachine vm with
         | (_, Some err) => ([], Some (ErrorfW "unable to convert instance to vminfo: " err))
         | (info, None) => processLoop rest scope (ret ++ [info])
         end
    else processLoop rest scope ret.
Proof.
  cbn [processLoop]. unfold inScope.
  destruct (hasIncludeTags vm (InstanceTagSelector scope)),
           (hasExcludeTags vm (InstanceTagExclusion scope)),
           (getVMInfoFromVirtualMachine vm) as [info [err|]]; reflexivity.
Qed.

Lemma processLoop_spec (vms : list VirtualMachine) (scope : AzureScanScope) (ret : list TargetType) :
  match snd (processLoop vms scope ret) with
  | None =>
      fst (processLoop vms scope ret)
      = ret ++ map (fun vm => fst (getVMInfoFromVirtualMachine vm)) (List.filter (inScope scope) vms)
      /\ Forall (fun vm => snd (getVMInfoFromVirtualMachine vm) = None) (List.filter (inScope scope) vms)
  | Some err =>
      fst (processLoop vms scope ret) = []
      /\ exists vm cause, In vm (List.filter (inScope scope) vms)
                          /\ snd (getVMInfoFromVirtualMachine vm) = Some cause
                          /\ err = ErrorfW "unable to convert instance to vminfo: " cause
  end.
Proof.
  revert ret. induction vms as [|vm rest IH]; intros ret.
  - cbn. rewrite app_nil_r. split; [reflexivity | constructor].
  - rewrite processLoop_cons. cbn [List.filter].
    destruct (inScope scope vm); [| apply IH].
    destruct (getVMInfoFromVirtualMachine vm) as [info [cause|]] eqn:Hinfo.
    + cbn. split; [reflexivity|]. exists vm, cause.
      rewrite Hinfo. repeat split. left. reflexivity.
    + specialize (IH (ret ++ [info])).
      destruct (snd (processLoop rest scope (ret ++ [info]))) as [err|].
      * destruct IH as (Hnil & vm' & cause & Hin & Hc & ->).
        split; [exact Hnil|]. exists vm', cause. repeat split; [right; exact Hin | exact Hc].
      * destruct IH as (Hret & Hall). split.
        -- rewrite Hret. cbn [map]. rewrite Hinfo. cbn [fst]. rewrite <- app_assoc. reflexivity.
        -- constructor; [rewrite Hinfo; reflexivity | exact Hall].
Qed.


End Discovery.

(** The specification's example: selector [{env:prod}] against a VM
    tagged [{env:prod, team:x}] and against a VM without the [env] tag. *)
Definition taggedVM (tags : gmap string string) : VirtualMachine :=
  mkVirtualMachine "" "" "" "" tags "" "" None (mkOSDisk "" "" "" "" "" "") []
                   (mkOSProfile "" "" false []) [] "" 0 "".

Example tag_filtering_example :
  let prodX := taggedVM (<["env" := "prod"]> (<["team" := "x"]> ∅)) in
  let noEnv := taggedVM (<["team" := "x"]> ∅) in
  let sel := Some [mkTag "env" "prod"] in
  hasIncludeTags prodX sel = true /\ hasExcludeTags prodX sel = true
  /\ hasIncludeTags noEnv sel = false /\ hasExcludeTags noEnv sel = false.
Proof. vm_compute. auto. Qed.

(** X10.  The tags reported for a target are the tags of the VM: one tag
    per key of the map, each key once and with its value; so the VM
    carries all of its reported tags, a selector made of them includes
    it, and as an exclusion it excludes it, unless the VM has no tags, in
    which case the empty selector excludes nothing. *)
Theorem convertTags_reports_the_tags (vm : VirtualMachine) :
  length (convertTags (vmTags vm)) = size (vmTags vm)
  /\ NoDup (map Key (convertTags (vmTags vm)))
  /\ (forall k v, In (mkTag k v) (convertTags (vmTags vm)) <-> vmTags vm !! k = Some v)
  /\ carriesAll vm (convertTags (vmTags vm))
  /\ hasIncludeTags vm (Some (convertTags (vmTags vm))) = true
  /\ hasExcludeTags vm (Some (convertTags (vmTags vm))) = negb (Nat.eqb (size (vmTags vm)) 0).
Proof.
  assert (Hlen : length (convertTags (vmTags vm)) = size (vmTags vm)).
  { unfold convertTags. rewrite length_map. apply length_map_to_list. }
  assert (Hin : forall k v, In (mkTag k v) (convertTags (vmTags vm)) <-> vmTags vm !! k = Some v).
  { intros k v. unfold convertTags. rewrite in_map_iff. split.
    - intros ([k' v'] & [= -> ->] & Hin). apply elem_of_map_to_list, list_elem_of_In, Hin.
    - intros Hlk. exists (k, v). split; [reflexivity|].
      apply list_elem_of_In, elem_of_map_to_list, Hlk. }
  assert (Hall : carriesAll vm (convertTags (vmTags vm))).
  { intros [k v] Htag. apply Hin, Htag. }
  split; [exact Hlen|]. split.
  { unfold convertTags. rewrite map_map. cbn [Key]. apply NoDup_fst_map_to_list. }
  split; [exact Hin|]. split; [exact Hall|]. split.
  - apply hasIncludeTags_spec. right. right. eexists. split; [reflexivity | exact Hall].
  - destruct (Nat.eqb_spec (size (vmTags vm)) 0) as [Hz | Hnz]; cbn [negb].
    + destruct (hasExcludeTags vm (Some (convertTags (vmTags vm)))) eqn:Hex; [|reflexivity].
      apply hasExcludeTags_spec in Hex as (l & [= <-] & Hne & _).
      rewrite Hz in Hlen. destruct (convertTags (vmTags vm)); [contradiction | discriminate].
    + apply hasExcludeTags_spec. eexists. split; [reflexivity|]. split; [|exact Hall].
      intros Hnil. rewrite Hnil in Hlen. cbn in Hlen. congruence.
Qed.

(* --------------------------------------------------------------------- *)
(** ** Discovering the targets of a scope *)
(* --------------------------------------------------------------------- *)

(** A Go call either returns or panics. *)
Inductive Go (A : Type) : Type :=
  | Returned (a : A)
  | Panicked (reason : string).
Arguments Returned {A} _.
Arguments Panicked {A} _.

Definition nilDereference : string :=
  "runtime error: invalid memory address or nil pointer dereference".

(** A pager of the SDK, as the answers that [NextPage] gives until [More]
    is false: each a page of VMs and an error. *)
Definition Pager : Type := list (list VirtualMachine * option Error).

Section Targets.

(** [models.ScanScopeType] and its generated [AsAzureScanScope], which are
    not in the sources, and the two pagers of the VM client; making a
    pager steps the cloud. *)
Context {World TargetType ScanScopeType : Type}.
Variable FromVMInfo : VMInfo -> TargetType * option Error.
Variable AsAzureScanScope : ScanScopeType -> AzureScanScope * option Error.
Variable vmClient_NewListAllPager : World -> Pager * World.
Variable vmClient_NewListPager : string -> World -> Pager * World.

(** [for res.More() { page, err := res.NextPage(ctx) ... }], with [ret] so
    far; an error ends [DiscoverTargets] with [nil] and that error. *)
Fixpoint pagesLoop (res : Pager) (azureScanScope : AzureScanScope) (ret : list TargetType)
    : list TargetType * option Error :=
  match res with
  | [] => (ret, None)
  | (page, err) :: rest =>
      match err with
      | Some err => ([], Some (ErrorfW "failed to get next page: " err))
      | None =>
          let '(ts, err) := processVirtualMachineListIntoTargetTypes FromVMInfo page azureScanScope in
          match err with
          | Some err => ([], Some err)
          | None => pagesLoop rest azureScanScope (ret ++ ts)
          end
      end
  end.

(** [for _, resourceGroup := range *azureScanScope.ResourceGroups { ... }] *)
Fixpoint groupsLoop (resourceGroups : list string) (azureScanScope : AzureScanScope)
    (ret : list TargetType) (w : World) : (list TargetType * option Error) * World :=
  match resourceGroups with
  | [] => ((ret, None), w)
  | resourceGroup :: rest =>
      let '(res, w1) := vmClient_NewListPager resourceGroup w in
      let '(ret', err) := pagesLoop res azureScanScope ret in
      match err with
      | Some err => (([], Some err), w1)
      | None => groupsLoop rest azureScanScope ret' w1
      end
  end.

Definition DiscoverTargets (scanScope : ScanScopeType) (w : World)
    : Go ((list TargetType * option Error) * World) :=
  let '(azureScanScope, err) := AsAzureScanScope scanScope in
  match err with
  | Some err => Returned (([], Some (ErrorfV "failed to convert as azure scan scope: " err)), w)
  | None =>
      if match AllResourceGroups azureScanScope with Some all => all | None => false end
      then
        (* list all vms in all resourceGroups in the subscription *)
        let '(res, w1) := vmClient_NewListAllPager w in
        Returned (pagesLoop res azureScanScope [], w1)
      else
        (* if scan scope is only for specific resource groups and not all *)
        match ResourceGroups azureScanScope with
        | None => Panicked nilDereference
        | Some resourceGroups => Returned (groupsLoop resourceGroups azureScanScope [] w)
        end
  end.

(** The pagers that the loop over the resource groups makes, in order. *)
Fixpoint pagersOf (resourceGroups : list string) (w : World) : list Pager :=
  match resourceGroups with
  | [] => []
  | resourceGroup :: rest =>
      let '(res, w1) := vmClient_NewListPager resourceGroup w in
      res :: pagersOf rest w1
  end.

(** The pagers that a scope consults. *)
Definition pagersFor (azureScanScope : AzureScanScope) (w : World) : list Pager :=
  if match AllResourceGroups azureScanScope with Some all => all | None => false end
  then [fst (vmClient_NewListAllPager w)]
  else match ResourceGroups azureScanScope with
       | Some resourceGroups => pagersOf resourceGroups w
       | None => []
       end.

(** The VMs on the pages of some pagers that pass the tag filters of the
    scope, in the order of the pagers and pages. *)
Definition vmsInScope (azureScanScope : AzureScanScope) (pagers : list Pager)
    : list VirtualMachine :=
  List.filter (inScope azureScanScope) (concat (map fst (concat pagers))).

Definition targetOf (vm : VirtualMachine) : TargetType :=
  fst (getVMInfoFromVirtualMachine FromVMInfo vm).

Lemma vmsInScope_cons (scope : AzureScanScope) (res : Pager) (pagers : list Pager) :
  vmsInScope scope (res :: pagers) = vmsInScope scope [res] ++ vmsInScope scope pagers.
Proof.
  unfold vmsInScope. cbn [concat]. rewrite app_nil_r, map_app, concat_app.
  apply List.filter_app.
Qed.

Lemma vmsInScope_page (scope : AzureScanScope) (page : list VirtualMachine)
    (err : option Error) (rest : Pager) :
  vmsInScope scope [(page, err) :: rest]
  = List.filter (inScope scope) page ++ vmsInScope scope [rest].
Proof.
  unfold vmsInScope. cbn [concat map fst app]. rewrite !app_nil_r.
  apply List.filter_app.
Qed.

Lemma pagesLoop_spec (res : Pager) (scope : AzureScanScope) (ret : list TargetType) :
  match snd (pagesLoop res scope ret) with
  | None =>
      fst (pagesLoop res scope ret) = ret ++ map targetOf (vmsInScope scope [res])
      /\ Forall (fun page => snd page = None) res
      /\ Forall (fun vm => snd (getVMInfoFromVirtualMachine FromVMInfo vm) = None)
                (vmsInScope scope [res])
  | Some _ => fst (pagesLoop res scope ret) = []
  end.
Proof.
  revert ret. induction res as [|[page [perr|]] rest IH]; intros ret.
  - cbn. rewrite app_nil_r. repeat split; constructor.
  - reflexivity.
  - cbn [pagesLoop]. unfold processVirtualMachineListIntoTargetTypes.
    pose proof (processLoop_spec FromVMInfo page scope []) as Hpage.
    destruct (processLoop FromVMInfo page scope []) as [ts [err|]]; cbn [fst snd] in Hpage.
    + reflexivity.
    + destruct Hpage as [Hts Hconv]. cbn [app] in Hts. subst ts.
      match goal with |- context [pagesLoop rest scope ?r] => specialize (IH r) end.
      destruct (snd (pagesLoop rest scope _)); [exact IH|].
      destruct IH as (Hret & Hpages & Hrest). rewrite vmsInScope_page. split; [|split].
      * rewrite Hret, map_app, <- app_assoc. reflexivity.
      * constructor; [reflexivity | exact Hpages].
      * apply Forall_app. split; [exact Hconv | exact Hrest].
Qed.

Lemma groupsLoop_spec (resourceGroups : list string) (scope : AzureScanScope)
    (ret : list TargetType) (w : World) :
  match snd (fst (groupsLoop resourceGroups scope ret w)) with
  | None =>
      fst (fst (groupsLoop resourceGroups scope ret w))
      = ret ++ map targetOf (vmsInScope scope (pagersOf resourceGroups w))
      /\ Forall (fun page => snd page = None) (concat (pagersOf resourceGroups w))
      /\ Forall (fun vm => snd (getVMInfoFromVirtualMachine FromVMInfo vm) = None)
                (vmsInScope scope (pagersOf resourceGroups w))
  | Some _ => fst (fst (groupsLoop resourceGroups scope ret w)) = []
  end.
Proof.
  revert ret w. induction resourceGroups as [|resourceGroup rest IH]; intros ret w.
  - cbn. rewrite app_nil_r. repeat split; constructor.
  - cbn [groupsLoop pagersOf].
    destruct (vmClient_NewListPager resourceGroup w) as [res w1].
    pose proof (pagesLoop_spec res scope ret) as Hres.
    destruct (pagesLoop res scope ret) as [ret' [err|]]; cbn [fst snd] in Hres; [reflexivity|].
    destruct Hres as (Hret' & Hpages & Hconv). subst ret'. cbv beta iota.
    specialize (IH (ret ++ map targetOf (vmsInScope scope [res])) w1).
    destruct (snd (fst (groupsLoop rest scope _ w1))); [exact IH|].
    destruct IH as (Hret & Hpages' & Hconv').
    rewrite (vmsInScope_cons scope res (pagersOf rest w1)). cbn [concat].
    split; [|split].
    + rewrite Hret, map_app, <- app_assoc. reflexivity.
    + apply Forall_app. split; assumption.
    + apply Forall_app. split; assumption.
Qed.

(** X19.  When [DiscoverTargets] succeeds, every page of every pager the
    scope consults (the pager over all VMs when [AllResourceGroups] is
    set and true, otherwise one pager per resource group of the scope, in
    order) was fetched without an error, and the targets returned are the
    conversions, in the order of the pagers and pages, of exactly the VMs
    on these pages that pass the tag filters of the scope; each of these
    conversions succeeded. *)
Theorem DiscoverTargets_success (scanScope : ScanScopeType) (w w' : World)
    (ret : list TargetType) :
  DiscoverTargets scanScope w = Returned ((ret, None), w') ->
  exists azureScanScope,
    AsAzureScanScope scanScope = (azureScanScope, None)
    /\ Forall (fun page => snd page = None) (concat (pagersFor azureScanScope w))
    /\ ret = map targetOf (vmsInScope azureScanScope (pagersFor azureScanScope w))
    /\ Forall (fun vm => snd (getVMInfoFromVirtualMachine FromVMInfo vm) = None)
              (vmsInScope azureScanScope (pagersFor azureScanScope w))
    /\ (forall vm, In vm (vmsInScope azureScanScope (pagersFor azureScanScope w)) ->
          hasIncludeTags vm (InstanceTagSelector azureScanScope) = true
          /\ hasExcludeTags vm (InstanceTagExclusion azureScanScope) = false).
Proof.
  unfold DiscoverTargets, pagersFor.
  destruct (AsAzureScanScope scanScope) as [scope [err|]]; [discriminate|].
  intros Hrun. exists scope. split; [reflexivity|].
  assert (Hfilter : forall pagers vm, In vm (vmsInScope scope pagers) ->
            hasIncludeTags vm (InstanceTagSelector scope) = true
            /\ hasExcludeTags vm (InstanceTagExclusion scope) = false).
  { intros pagers vm Hin. unfold vmsInScope in Hin. apply filter_In in Hin as [_ Hin].
    unfold inScope in Hin. apply andb_true_iff in Hin as [Hinc Hexc].
    apply negb_true_iff in Hexc. split; assumption. }
  destruct (match AllResourceGroups scope with Some all => all | None => false end).
  - destruct (vmClient_NewListAllPager w) as [res w1]. cbn [fst].
    pose proof (pagesLoop_spec res scope []) as Hres.
    injection Hrun as Hrun _. rewrite Hrun in Hres. cbn [fst snd app] in Hres.
    destruct Hres as (-> & Hpages & Hconv). cbn [concat]. rewrite app_nil_r.
    split; [exact Hpages|]. split; [reflexivity|]. split; [exact Hconv | apply Hfilter].
  - destruct (ResourceGroups scope) as [resourceGroups|]; [|discriminate].
    pose proof (groupsLoop_spec resourceGroups scope [] w) as Hres.
    injection Hrun as Hrun. rewrite Hrun in Hres. cbn [fst snd app] in Hres.
    destruct Hres as (-> & Hpages & Hconv).
    split; [exact Hpages|]. split; [reflexivity|]. split; [exact Hconv | apply Hfilter].
Qed.


End Targets.

(* --------------------------------------------------------------------- *)
(** ** The client and what it calls *)
(* --------------------------------------------------------------------- *)

Record Config : Type := mkConfig {
  SubscriptionID : string;
  ScannerLocation : string;
  ScannerResourceGroup : string;
  ScannerVMSize : string;
  ScannerImagePublisher : string;
  ScannerImageOffer : string;
  ScannerImageSKU : string;
  ScannerImageVersion : string;
  ScannerPublicKey : string
}.

Record ScanJobConfig (TargetType : Type) : Type := mkScanJobConfig {
  ScanResultID : string;
  TargetInfo : TargetType
}.
Arguments mkScanJobConfig {TargetType} _ _.
Arguments ScanResultID {TargetType} _.
Arguments TargetInfo {TargetType} _.

(** Constants of the Azure SDK ([armcompute]). *)
Definition ResourceIdentityTypeNone : string := "None".
Definition DiskCreateOptionTypesFromImage : string := "FromImage".
Definition DiskCreateOptionTypesAttach : string := "Attach".
Definition DiskDeleteOptionTypesDelete : string := "Delete".
Definition CachingTypesReadWrite : string := "ReadWrite".
Definition StorageAccountTypesStandardLRS : string := "Standard_LRS".
Definition DiskStateAttached : string := "Attached".

(** The receiver [c *Client]: its configuration and its SDK clients, each
    call a step of the cloud [World] returning Go's [(value, err)];
    together with the functions and the constant of the repository that the
    pipeline uses and that are not in the sources. *)
Class Client (World TargetType Snapshot : Type) : Type := {
  azureConfig : Config;
  vmClient_Get : string -> string -> World -> (VirtualMachine * option Error) * World;
  vmClient_BeginCreateOrUpdate : string -> string -> VirtualMachine -> World -> option Error * World;
  vmClient_BeginDelete : string -> string -> World -> option Error * World;
  disksClient_Get : string -> string -> World -> (Disk * option Error) * World;
  base64_EncodeToString : string -> string;
  (* not in the sources *)
  ProvisioningStateSucceeded : string;
  AsVMInfo : TargetType -> VMInfo * option Error;
  handleAzureRequestError : Error -> string -> bool * Error;
  cloudinit_New : ScanJobConfig TargetType -> string * option Error;
  ensureSnapshotForVMRootVolume :
    ScanJobConfig TargetType -> VirtualMachine -> World -> (Snapshot * option Error) * World;
  ensureManagedDiskFromSnapshot :
    ScanJobConfig TargetType -> Snapshot -> World -> (Disk * option Error) * World;
  ensureManagedDiskFromSnapshotInDifferentRegion :
    ScanJobConfig TargetType -> Snapshot -> World -> (Disk * option Error) * World;
  ensureNetworkInterface : ScanJobConfig TargetType -> World -> (Interface * option Error) * World;
  ensureDeleted :
    string -> (World -> option Error * World) -> (World -> option Error * World) -> Z ->
    World -> option Error * World;
  ensureNetworkInterfaceDeleted : ScanJobConfig TargetType -> World -> option Error * World;
  ensureTargetDiskDeleted : ScanJobConfig TargetType -> World -> option Error * World;
  ensureBlobDeleted : ScanJobConfig TargetType -> World -> option Error * World;
  ensureSnapshotDeleted : ScanJobConfig TargetType -> World -> option Error * World
}.

(** The steps of the two pipelines that are calls into the rest of the package. *)
Inductive Step : Type :=
  | StepSnapshot | StepManagedDisk | StepManagedDiskInDifferentRegion | StepNetworkInterface
  | StepScannerVMDeleted | StepNetworkInterfaceDeleted | StepTargetDiskDeleted
  | StepBlobDeleted | StepSnapshotDeleted.

(** What a pipeline did to the outside, in order: the SDK calls it issued
    and the steps it ran, each step with the error it returned. *)
Inductive Call : Type :=
  | CallVMGet (resourceGroup name : string)
  | CallVMBeginCreateOrUpdate (resourceGroup name : string) (parameters : VirtualMachine)
  | CallDisksGet (resourceGroup name : string)
  | CallStep (s : Step) (err : option Error).

Record St (World : Type) : Type := mkSt { world : World; calls : list Call }.
Arguments mkSt {World} _ _.
Arguments world {World} _.
Arguments calls {World} _.

(** Computations that step the cloud and record their calls. *)
Definition M (World A : Type) : Type := St World -> A * St World.

#[global] Instance M_ret {World} : MRet (M World) := fun A a st => (a, st).
#[global] Instance M_bind {World} : MBind (M World) :=
  fun A B f m st => let '(a, st') := m st in f a st'.

(** An SDK call: step the world and record the call. *)
Definition call {World A} (c : Call) (f : World -> A * World) : M World A :=
  fun st => let '(a, w) := f (world st) in (a, mkSt w (calls st ++ [c])).

(** A pipeline step returning [err]: step the world, record the step and its error. *)
Definition step {World} (s : Step) (f : World -> option Error * World) : M World (option Error) :=
  fun st => let '(err, w) := f (world st) in (err, mkSt w (calls st ++ [CallStep s err])).

(** A pipeline step returning [(value, err)]. *)
Definition stepV {World A} (s : Step) (f : World -> (A * option Error) * World)
    : M World (A * option Error) :=
  fun st => let '(r, w) := f (world st) in (r, mkSt w (calls st ++ [CallStep s (snd r)])).

(** [strings.Split(s, sep)] for a separator of one byte. *)
Fixpoint strings_Split (s : string) (sep : ascii) : list string :=
  match s with
  | EmptyString => [""]
  | String c s' =>
      if Ascii.eqb c sep then "" :: strings_Split s' sep
      else match strings_Split s' sep with
           | part :: parts => String c part :: parts
           | [] => [String c ""]
           end
  end.

Lemma strings_Split_not_nil (s : string) (sep : ascii) : strings_Split s sep <> [].
Proof.
  destruct s as [|c s]; cbn; [discriminate|].
  destruct (Ascii.eqb c sep); [discriminate|].
  destruct (strings_Split s sep); discriminate.
Qed.

(** Joining the parts with the separator gives the string back. *)
Lemma strings_Split_join (s : string) (sep : ascii) :
  String.concat (String sep "") (strings_Split s sep) = s.
Proof.
  induction s as [|c s IH]; [reflexivity|].
  cbn [strings_Split].
  pose proof (strings_Split_not_nil s sep) as Hne.
  destruct (Ascii.eqb_spec c sep) as [-> | Hc].
  - destruct (strings_Split s sep) as [|part parts]; [contradiction|].
    cbn [String.concat] in *. rewrite <- IH. reflexivity.
  - destruct (strings_Split s sep) as [|part parts]; [contradiction|].
    destruct parts as [|part' parts]; cbn [String.concat] in *.
    + rewrite IH. reflexivity.
    + rewrite <- IH. reflexivity.
Qed.

(** No part holds the separator. *)
Lemma strings_Split_parts (s : string) (sep : ascii) :
  Forall (fun part => forall n, String.get n part <> Some sep) (strings_Split s sep).
Proof.
  induction s as [|c s IH]; cbn [strings_Split].
  - constructor; [intros n; destruct n; discriminate | constructor].
  - destruct (Ascii.eqb_spec c sep) as [-> | Hc].
    + constructor; [intros n; destruct n; discriminate | exact IH].
    + destruct (strings_Split s sep) as [|part parts].
      * constructor; [| constructor].
        intros [|n]; cbn; [congruence | destruct n; discriminate].
      * inversion IH as [|? ? Hpart Hparts]; subst. constructor; [| exact Hparts].
        intros [|n]; cbn; [congruence | apply Hpart].
Qed.

(** [%s] of a [[]string]. *)
Definition formatStrings (l : list string) : string := "[" +:+ String.concat " " l +:+ "]".

Definition resourceGroupAndNameFromInstanceID (instanceID : string)
    : string * string * option Error :=
  let idParts := strings_Split instanceID "/" in
  if negb (Nat.eqb (length idParts) instanceIDPartsLength)
  then ("", "", Some (FatalError (Errorf ("asset instance id in unexpected format got: "
                                          +:+ formatStrings idParts))))
  else (nth resourceGroupPartIdx idParts "", nth vmNamePartIdx idParts "", None).

(** The example of the source's comment. *)
Example resourceGroupAndNameFromInstanceID_example :
  resourceGroupAndNameFromInstanceID
    "/subscriptions/ecad88af-09d5-4725-8d80-906e51fddf02/resourceGroups/vmclarity-sambetts-dev/providers/Microsoft.Compute/virtualMachines/vmclarity-server"
  = ("vmclarity-sambetts-dev", "vmclarity-server", None).
Proof. reflexivity. Qed.

(** [armcompute.VirtualMachine{}] *)
Definition emptyVirtualMachine : VirtualMachine :=
  mkVirtualMachine "" "" "" "" ∅ "" "" None (mkOSDisk "" "" "" "" "" "") []
                   (mkOSProfile "" "" false []) [] "" 0 "".

(** [vm.Properties.StorageProfile.DataDisks = disks] *)
Definition setDataDisks (vm : VirtualMachine) (disks : list DataDisk) : VirtualMachine :=
  mkVirtualMachine (vmID vm) (vmName vm) (vmType vm) (vmLocation vm) (vmTags vm)
                   (vmIdentityType vm) (vmSize vm) (vmImageReference vm) (vmOSDisk vm) disks
                   (vmOSProfile vm) (vmNetworkInterfaces vm) (vmUserData vm) (vmTimeCreated vm)
                   (vmProvisioningState vm).

Section Lifecycle.

Context {World TargetType Snapshot : Type} `{c : Client World TargetType Snapshot}.

Definition scannerVMNameFromJobConfig (config : ScanJobConfig TargetType) : string :=
  "vmclarity-scanner-" +:+ ScanResultID config.

(** The [parameters] of the scanner VM to create. *)
Definition scannerVMParameters (vmName : string) (networkInterface : Interface)
    (userDataBase64 : string) : VirtualMachine :=
  let sshKeys :=
    if negb (String.eqb (ScannerPublicKey azureConfig) "")
    then [mkSSHPublicKey ("/home/" +:+ "vmclarity" +:+ "/.ssh/authorized_keys")
                         (ScannerPublicKey azureConfig)]
    else [] in
  mkVirtualMachine
    "" "" "" (ScannerLocation azureConfig) ∅
    ResourceIdentityTypeNone
    (ScannerVMSize azureConfig)
    (Some (mkImageReference (ScannerImagePublisher azureConfig) (ScannerImageOffer azureConfig)
                            (ScannerImageSKU azureConfig) (ScannerImageVersion azureConfig)))
    (mkOSDisk (vmName +:+ "-rootvolume") DiskCreateOptionTypesFromImage DiskDeleteOptionTypesDelete
              CachingTypesReadWrite StorageAccountTypesStandardLRS "")
    []
    (mkOSProfile vmName "vmclarity" true sshKeys)
    [nicID networkInterface]
    userDataBase64
    0 "".

Definition ensureScannerVirtualMachine (config : ScanJobConfig TargetType)
    (networkInterface : Interface) : M World (VirtualMachine * option Error) :=
  let vmName := scannerVMNameFromJobConfig config in
  '(vmResp, err) ← call (CallVMGet (ScannerResourceGroup azureConfig) vmName)
                        (vmClient_Get (ScannerResourceGroup azureConfig) vmName);
  match err with
  | None =>
      if negb (String.eqb (vmProvisioningState vmResp) ProvisioningStateSucceeded)
      then mret (vmResp,
                 Some (RetryableError VMCreateEstimateProvisionTime
                         (Errorf ("VM is not ready yet, provisioning state: "
                                  +:+ vmProvisioningState vmResp))))
      else mret (vmResp, None)
  | Some err =>
      let '(notFound, err) :=
        handleAzureRequestError err ("getting scanner virtual machine: " +:+ vmName) in
      if negb notFound then mret (emptyVirtualMachine, Some err)
      else
        let '(userData, err) := cloudinit_New config in
        match err with
        | Some err => mret (emptyVirtualMachine, Some (ErrorfV "failed to generate cloud-init: " err))
        | None =>
            let userDataBase64 := base64_EncodeToString userData in
            let parameters := scannerVMParameters vmName networkInterface userDataBase64 in
            err ← call (CallVMBeginCreateOrUpdate (ScannerResourceGroup azureConfig) vmName parameters)
                       (vmClient_BeginCreateOrUpdate (ScannerResourceGroup azureConfig) vmName
                                                     parameters);
            match err with
            | Some err =>
                mret (emptyVirtualMachine,
                      Some (snd (handleAzureRequestError err "creating virtual machine")))
            | None =>
                mret (emptyVirtualMachine,
                      Some (RetryableError VMCreateEstimateProvisionTime (Errorf "vm created")))
            end
        end
  end.


Definition ensureDiskAttachedToScannerVM (vm : VirtualMachine) (disk : Disk)
    : M World (option Error) :=
  (* for _, dataDisk := range ...DataDisks { if dataDisk.ManagedDisk.ID == disk.ID { ...; break } } *)
  let vmAttachedToDisk :=
    existsb (fun dataDisk => Pos.eqb (addr (ddManagedDiskID dataDisk)) (addr (diskID disk)))
            (vmDataDisks vm) in
  attachErr ←
    (if negb vmAttachedToDisk
     then
       let vm := setDataDisks vm [mkDataDisk DiskCreateOptionTypesAttach 0 (diskID disk)
                                             (diskName disk)] in
       err ← call (CallVMBeginCreateOrUpdate (ScannerResourceGroup azureConfig) (vmName vm) vm)
                  (vmClient_BeginCreateOrUpdate (ScannerResourceGroup azureConfig) (vmName vm) vm);
       match err with
       | Some err =>
           mret (Some (snd (handleAzureRequestError err
                              ("attaching disk " +:+ diskName disk +:+ " to VM " +:+ vmName vm))))
       | None => mret None
       end
     else mret None);
  match attachErr with
  | Some err => mret (Some err)
  | None =>
      '(diskResp, err) ← call (CallDisksGet (ScannerResourceGroup azureConfig) (diskName disk))
                              (disksClient_Get (ScannerResourceGroup azureConfig) (diskName disk));
      match err with
      | Some err =>
          mret (Some (snd (handleAzureRequestError err ("getting disk " +:+ diskName disk))))
      | None =>
          if negb (String.eqb (diskState diskResp) DiskStateAttached)
          then mret (Some (RetryableError VMDiskAttachEstimateTime
                             (Errorf ("volume is not yet attached, disk is in state: "
                                      +:+ diskState diskResp))))
          else mret None
      end
  end.

(** The part of [RunTargetScan] after the target VM has been fetched. *)
Definition runTargetScanOn (config : ScanJobConfig TargetType) (targetVM : VirtualMachine)
    : M World (option Error) :=
  '(snapshot, err) ← stepV StepSnapshot (ensureSnapshotForVMRootVolume config targetVM);
  match err with
  | Some err => mret (Some (ErrorfW "failed to ensure snapshot for vm root volume: " err))
  | None =>
      '(disk, err) ←
        (if String.eqb (vmLocation targetVM) (ScannerLocation azureConfig)
         then
           '(disk, err) ← stepV StepManagedDisk (ensureManagedDiskFromSnapshot config snapshot);
           mret (disk, option_map (ErrorfW "failed to ensure managed disk created from snapshot: ") err)
         else
           '(disk, err) ← stepV StepManagedDiskInDifferentRegion
                                (ensureManagedDiskFromSnapshotInDifferentRegion config snapshot);
           mret (disk, option_map
                         (ErrorfW "failed to ensure managed disk from snapshot in different region: ")
                         err));
      match err with
      | Some err => mret (Some err)
      | None =>
          '(networkInterface, err) ← stepV StepNetworkInterface (ensureNetworkInterface config);
          match err with
          | Some err => mret (Some (ErrorfW "failed to ensure scanner network interface: " err))
          | None =>
              '(scannerVM, err) ← ensureScannerVirtualMachine config networkInterface;
              match err with
              | Some err => mret (Some (ErrorfW "failed to ensure scanner virtual machine: " err))
              | None =>
                  err ← ensureDiskAttachedToScannerVM scannerVM disk;
                  match err with
                  | Some err =>
                      mret (Some (ErrorfW
                                    "failed to ensure target disk is attached to virtual machine: "
                                    err))
                  | None => mret None
                  end
              end
          end
      end
  end.

Definition RunTargetScan (config : ScanJobConfig TargetType) : M World (option Error) :=
  let '(vmInfo, err) := AsVMInfo (TargetInfo config) in
  match err with
  | Some err => mret (Some (FatalError (ErrorfW "unable to get vminfo from target: " err)))
  | None =>
      let '(resourceGroup, vmName, err) := resourceGroupAndNameFromInstanceID (InstanceID vmInfo) in
      match err with
      | Some err => mret (Some err)
      | None =>
          '(targetVM, err) ← call (CallVMGet resourceGroup vmName)
                                  (vmClient_Get resourceGroup vmName);
          match err with
          | Some err =>
              mret (Some (snd (handleAzureRequestError
                                 err ("getting target virtual machine " +:+ vmName))))
          | None => runTargetScanOn config targetVM
          end
      end
  end.





(** Unfold the monad in the goal. *)
Ltac run_monad :=
  unfold mbind, M_bind, mret, M_ret, call, step, stepV; cbn [world calls fst snd].

(* --------------------------------------------------------------------- *)
(** ** The specification's statements about the lifecycle *)
(* --------------------------------------------------------------------- *)

(** C6.  When the get call finds the scanner VM, [ensureScannerVirtualMachine]
    issues that one call and no create: with provisioning state Succeeded
    it returns the VM and a nil error, and called again on a VM still found
    in that state it succeeds again, the two get calls being all that was
    issued; with any other provisioning state it returns the VM and a
    retryable error carrying the estimated provisioning time. *)
Theorem ensureScannerVirtualMachine_idempotent
    (config : ScanJobConfig TargetType) (networkInterface : Interface)
    (st : St World) (vm : VirtualMachine) (w1 : World) :
  let rg := ScannerResourceGroup azureConfig in
  let name := scannerVMNameFromJobConfig config in
  let st1 := mkSt w1 (calls st ++ [CallVMGet rg name]) in
  vmClient_Get rg name (world st) = (vm, None, w1) ->
  (vmProvisioningState vm = ProvisioningStateSucceeded ->
     ensureScannerVirtualMachine config networkInterface st = ((vm, None), st1)
     /\ forall vm2 w2,
         vmClient_Get rg name w1 = (vm2, None, w2) ->
         vmProvisioningState vm2 = ProvisioningStateSucceeded ->
         ensureScannerVirtualMachine config networkInterface st1
         = ((vm2, None), mkSt w2 (calls st ++ [CallVMGet rg name; CallVMGet rg name])))
  /\ (vmProvisioningState vm <> ProvisioningStateSucceeded ->
      exists e,
        ensureScannerVirtualMachine config networkInterface st
        = ((vm, Some (RetryableError VMCreateEstimateProvisionTime e)), st1)).
Proof.
  intros rg name st1 Hget.
  assert (Hfound : forall s v w,
             vmClient_Get rg name (world s) = (v, None, w) ->
             ensureScannerVirtualMachine config networkInterface s
             = (if negb (String.eqb (vmProvisioningState v) ProvisioningStateSucceeded)
                then (v, Some (RetryableError VMCreateEstimateProvisionTime
                                 (Errorf ("VM is not ready yet, provisioning state: "
                                          +:+ vmProvisioningState v))))
                else (v, None),
                mkSt w (calls s ++ [CallVMGet rg name]))).
  { intros s v w H. unfold ensureScannerVirtualMachine. run_monad.
    fold name rg. rewrite H.
    destruct (negb (String.eqb (vmProvisioningState v) ProvisioningStateSucceeded)); reflexivity. }
  split.
  - intros Hok. split.
    + rewrite (Hfound st vm w1 Hget), Hok, String.eqb_refl. reflexivity.
    + intros vm2 w2 Hget2 Hok2.
      rewrite (Hfound st1 vm2 w2 Hget2), Hok2, String.eqb_refl.
      unfold st1; cbn [calls negb]. rewrite <- app_assoc. reflexivity.
  - intros Hne. eexists. rewrite (Hfound st vm w1 Hget).
    destruct (String.eqb_spec (vmProvisioningState vm) ProvisioningStateSucceeded) as [Heq | _];
      [contradiction | reflexivity].
Qed.

(** C7.  [resourceGroupAndNameFromInstanceID] returns parts 4 and 8 of the
    instance id split on '/' when there are exactly 9 parts, and otherwise
    a fatal error; and when the parsing fails [RunTargetScan] returns that
    fatal error at once: no call is issued, no step is run and the cloud
    is left as it was. *)
Theorem instance_id_parsing (instanceID : string) :
  (length (strings_Split instanceID "/") = 9%nat ->
     exists resourceGroup vmName,
       resourceGroupAndNameFromInstanceID instanceID = (resourceGroup, vmName, None)
       /\ strings_Split instanceID "/" !! 4%nat = Some resourceGroup
       /\ strings_Split instanceID "/" !! 8%nat = Some vmName)
  /\ (length (strings_Split instanceID "/") <> 9%nat ->
      exists e,
        resourceGroupAndNameFromInstanceID instanceID = ("", "", Some (FatalError e))
        /\ forall (config : ScanJobConfig TargetType) (vmInfo : VMInfo) (st : St World),
            AsVMInfo (TargetInfo config) = (vmInfo, None) ->
            InstanceID vmInfo = instanceID ->
            RunTargetScan config st = (Some (FatalError e), st)).
Proof.
  unfold resourceGroupAndNameFromInstanceID, instanceIDPartsLength, resourceGroupPartIdx,
    vmNamePartIdx.
  split.
  - intros Hlen. rewrite Hlen. cbn [Nat.eqb negb].
    do 2 eexists. split; [reflexivity|].
    assert (Hpart : forall i, (i < 9)%nat ->
              strings_Split instanceID "/" !! i = Some (nth i (strings_Split instanceID "/") "")).
    { intros i Hi.
      destruct (lookup_lt_is_Some_2 (strings_Split instanceID "/") i) as [part Hpart];
        [rewrite Hlen; exact Hi|].
      rewrite (nth_lookup_Some _ _ "" _ Hpart). exact Hpart. }
    split; apply Hpart; lia.
  - intros Hlen. apply Nat.eqb_neq in Hlen. rewrite Hlen. cbn [negb].
    eexists. split; [reflexivity|].
    intros config vmInfo st Hinfo Hid.
    unfold RunTargetScan, resourceGroupAndNameFromInstanceID, instanceIDPartsLength.
    rewrite Hinfo, Hid, Hlen. reflexivity.
Qed.


(* --------------------------------------------------------------------- *)
(** ** Further properties of the lifecycle *)
(* --------------------------------------------------------------------- *)

Ltac run_monad_in H :=
  unfold mbind, M_bind, mret, M_ret, call, step, stepV in H; cbn [world calls fst snd] in H.

Lemma ensureScannerVirtualMachine_ok_inv
    (config : ScanJobConfig TargetType) (networkInterface : Interface)
    (st st' : St World) (vm : VirtualMachine) :
  ensureScannerVirtualMachine config networkInterface st = ((vm, None), st') ->
  exists w',
    vmClient_Get (ScannerResourceGroup azureConfig) (scannerVMNameFromJobConfig config) (world st)
    = (vm, None, w')
    /\ vmProvisioningState vm = ProvisioningStateSucceeded
    /\ st' = mkSt w' (calls st ++ [CallVMGet (ScannerResourceGroup azureConfig)
                                             (scannerVMNameFromJobConfig config)]).
Proof.
  unfold ensureScannerVirtualMachine. run_monad.
  destruct (vmClient_Get _ _ (world st)) as [[vmResp [err|]] w1].
  - destruct (handleAzureRequestError err _) as [[|] e]; cbn [negb]; [|discriminate].
    destruct (cloudinit_New config) as [userData [e2|]]; [discriminate|].
    cbn [world calls].
    destruct (vmClient_BeginCreateOrUpdate _ _ _ w1) as [[e3|] w2]; discriminate.
  - destruct (String.eqb_spec (vmProvisioningState vmResp) ProvisioningStateSucceeded)
      as [Heq | Hne]; cbn [negb]; [|discriminate].
    intros [= <- <-]. exists w1. repeat split. exact Heq.
Qed.

(** X5.  [ensureScannerVirtualMachine] reports success only for a VM it
    found ready: when it returns a nil error, its one call was the get,
    the get returned the VM it returns, and that VM's provisioning state
    is Succeeded.  In particular the call that issues the create never
    succeeds. *)
Theorem ensureScannerVirtualMachine_succeeds_only_when_ready
    (config : ScanJobConfig TargetType) (networkInterface : Interface)
    (st st' : St World) (vm : VirtualMachine) :
  ensureScannerVirtualMachine config networkInterface st = ((vm, None), st') ->
  exists w',
    vmClient_Get (ScannerResourceGroup azureConfig) (scannerVMNameFromJobConfig config) (world st)
    = (vm, None, w')
    /\ vmProvisioningState vm = ProvisioningStateSucceeded
    /\ st' = mkSt w' (calls st ++ [CallVMGet (ScannerResourceGroup azureConfig)
                                             (scannerVMNameFromJobConfig config)]).
Proof. apply ensureScannerVirtualMachine_ok_inv. Qed.

(** X6.  [ensureScannerVirtualMachine] always starts with the get and
    issues at most one further call, the create; the create is issued only
    when the get failed, the failure was classified as not found and the
    cloud-init was generated; it creates the VM under the scanner's name
    with the parameters built from the configuration, and the result is
    then the empty VM with an error: the retryable "vm created" with the
    estimated provisioning time when the create was accepted. *)
Theorem ensureScannerVirtualMachine_creates_only_when_not_found
    (config : ScanJobConfig TargetType) (networkInterface : Interface) (st : St World) :
  let rg := ScannerResourceGroup azureConfig in
  let name := scannerVMNameFromJobConfig config in
  let r := ensureScannerVirtualMachine config networkInterface st in
  calls (snd r) = calls st ++ [CallVMGet rg name]
  \/ exists vmResp err w1 userData,
       let parameters :=
         scannerVMParameters name networkInterface (base64_EncodeToString userData) in
       vmClient_Get rg name (world st) = (vmResp, Some err, w1)
       /\ fst (handleAzureRequestError err ("getting scanner virtual machine: " +:+ name)) = true
       /\ cloudinit_New config = (userData, None)
       /\ calls (snd r) = calls st ++ [CallVMGet rg name; CallVMBeginCreateOrUpdate rg name parameters]
       /\ fst (fst r) = emptyVirtualMachine
       /\ snd (fst r) <> None
       /\ (fst (vmClient_BeginCreateOrUpdate rg name parameters w1) = None ->
           snd (fst r)
           = Some (RetryableError VMCreateEstimateProvisionTime (Errorf "vm created"))).
Proof.
  intros rg name r. unfold r, ensureScannerVirtualMachine. run_monad. fold rg name.
  destruct (vmClient_Get rg name (world st)) as [[vmResp [err|]] w1] eqn:Hget.
  - destruct (handleAzureRequestError err _) as [[|] e] eqn:Hhandle; cbn [negb].
    + destruct (cloudinit_New config) as [userData [e2|]] eqn:Hinit.
      * left. reflexivity.
      * right. exists vmResp, err, w1, userData. cbn zeta. cbn [world calls].
        destruct (vmClient_BeginCreateOrUpdate rg name _ w1) as [[e3|] w2] eqn:Hcreate;
          cbn [fst snd calls]; rewrite <- app_assoc;
          repeat split; try reflexivity; try discriminate; rewrite Hhandle; reflexivity.
    + left. reflexivity.
  - left.
    destruct (negb (String.eqb (vmProvisioningState vmResp) ProvisioningStateSucceeded));
      reflexivity.
Qed.









(** The number of bytes [ch] in [s]. *)
Fixpoint countByte (ch : ascii) (s : string) : nat :=
  match s with
  | EmptyString => 0
  | String c' s' => (if Ascii.eqb c' ch then 1 else 0) + countByte ch s'
  end.

Lemma append_EmptyString (b : string) : "" +:+ b = b.
Proof. reflexivity. Qed.

Lemma append_String (x : ascii) (a b : string) : String x a +:+ b = String x (a +:+ b).
Proof. reflexivity. Qed.

Lemma countByte_app (ch : ascii) (a b : string) :
  countByte ch (a +:+ b) = (countByte ch a + countByte ch b)%nat.
Proof.
  induction a as [|x a IH]; [reflexivity|].
  rewrite append_String. cbn [countByte]. rewrite IH. lia.
Qed.

Lemma strings_Split_length (s : string) (sep : ascii) :
  length (strings_Split s sep) = S (countByte sep s).
Proof.
  induction s as [|x s IH]; [reflexivity|]. cbn [strings_Split countByte].
  destruct (Ascii.eqb x sep); cbn [length Nat.add].
  - rewrite IH. reflexivity.
  - destruct (strings_Split s sep) as [|part parts]; cbn [length] in *; [discriminate | exact IH].
Qed.

Lemma strings_Split_whole (a : string) (sep : ascii) :
  countByte sep a = 0%nat -> strings_Split a sep = [a].
Proof.
  induction a as [|x a IH]; [reflexivity|]. cbn [strings_Split countByte].
  destruct (Ascii.eqb x sep); [discriminate|]. intros H. rewrite (IH H). reflexivity.
Qed.

Lemma strings_Split_app (a b : string) (sep : ascii) :
  countByte sep a = 0%nat ->
  strings_Split (a +:+ String sep b) sep = a :: strings_Split b sep.
Proof.
  induction a as [|x a IH].
  - intros _. rewrite append_EmptyString. cbn [strings_Split]. rewrite Ascii.eqb_refl. reflexivity.
  - rewrite append_String. cbn [strings_Split countByte].
    destruct (Ascii.eqb x sep); [discriminate|]. intros H. rewrite (IH H). reflexivity.
Qed.

(** An instance id of the form of the source's example. *)
Definition azureVMID (subscription resourceGroup vmName : string) : string :=
  "/subscriptions/" +:+ subscription +:+ "/resourceGroups/" +:+ resourceGroup
  +:+ "/providers/Microsoft.Compute/virtualMachines/" +:+ vmName.

Lemma azureVMID_slashes (subscription resourceGroup vmName : string) :
  countByte "/" (azureVMID subscription resourceGroup vmName)
  = (8 + (countByte "/" subscription + countByte "/" resourceGroup + countByte "/" vmName))%nat.
Proof.
  unfold azureVMID. rewrite !countByte_app. cbn. lia.
Qed.

(** X9.  An instance id of the documented form
    [/subscriptions/S/resourceGroups/G/providers/Microsoft.Compute/virtualMachines/N]
    parses to [G] and [N] when none of [S], [G], [N] holds a '/', and is
    refused with a fatal error when one of them does. *)
Theorem instance_id_round_trip (subscription resourceGroup vmName : string) :
  ((countByte "/" subscription + countByte "/" resourceGroup + countByte "/" vmName = 0)%nat ->
   resourceGroupAndNameFromInstanceID (azureVMID subscription resourceGroup vmName)
   = (resourceGroup, vmName, None))
  /\ ((countByte "/" subscription + countByte "/" resourceGroup + countByte "/" vmName <> 0)%nat ->
      exists e,
        resourceGroupAndNameFromInstanceID (azureVMID subscription resourceGroup vmName)
        = ("", "", Some (FatalError e))).
Proof.
  split.
  - intros H.
    assert (Hs : countByte "/" subscription = 0%nat) by lia.
    assert (Hg : countByte "/" resourceGroup = 0%nat) by lia.
    assert (Hn : countByte "/" vmName = 0%nat) by lia.
    assert (Hparts : strings_Split (azureVMID subscription resourceGroup vmName) "/"
                     = [""; "subscriptions"; subscription; "resourceGroups"; resourceGroup;
                        "providers"; "Microsoft.Compute"; "virtualMachines"; vmName]).
    { unfold azureVMID.
      change ("/subscriptions/" +:+ subscription +:+ "/resourceGroups/" +:+ resourceGroup
              +:+ "/providers/Microsoft.Compute/virtualMachines/" +:+ vmName)
        with ("" +:+ String "/" ("subscriptions" +:+ String "/" (subscription +:+ String "/"
              ("resourceGroups" +:+ String "/" (resourceGroup +:+ String "/"
              ("providers" +:+ String "/" ("Microsoft.Compute" +:+ String "/"
              ("virtualMachines" +:+ String "/" vmName)))))))).
      rewrite !strings_Split_app by (reflexivity || assumption).
      rewrite (strings_Split_whole vmName "/" Hn). reflexivity. }
    unfold resourceGroupAndNameFromInstanceID. rewrite Hparts. reflexivity.
  - intros H. unfold resourceGroupAndNameFromInstanceID.
    rewrite strings_Split_length, azureVMID_slashes. unfold instanceIDPartsLength.
    destruct (Nat.eqb_spec (S (8 + (countByte "/" subscription + countByte "/" resourceGroup
                                    + countByte "/" vmName))) 9) as [Heq | _]; [lia|].
    cbn [negb]. eexists. reflexivity.
Qed.

End Lifecycle.

(* --------------------------------------------------------------------- *)
(** ** A concrete cloud *)
(* --------------------------------------------------------------------- *)

(** A cloud that is a table of virtual machines by name; the other
    resources are always there. *)
Definition demoConfig : Config :=
  mkConfig "sub-1" "eastus" "scanners" "Standard_D2s_v3" "Canonical"
           "0001-com-ubuntu-server-jammy" "22_04-lts-gen2" "latest" "".

Definition notFoundError : Error := External "ResourceNotFound".

Definition demoVM (name state : string) : VirtualMachine :=
  mkVirtualMachine ("/vm/" +:+ name) name "Microsoft.Compute/virtualMachines" "eastus" ∅ "" "" None
                   (mkOSDisk "" "" "" "" "" "Linux") [] (mkOSProfile "" "" false []) [] "" 0 state.

Definition demoDisk : Disk := mkDisk (mkStringPtr 1 "/disk/target") "target" "Attached".

#[global] Instance demoClient : Client (gmap string VirtualMachine) VMInfo unit := {
  azureConfig := demoConfig;
  vmClient_Get := fun _ name w =>
    match w !! name with
    | Some vm => (vm, None, w)
    | None => (emptyVirtualMachine, Some notFoundError, w)
    end;
  vmClient_BeginCreateOrUpdate := fun _ name parameters w => (None, <[name := parameters]> w);
  vmClient_BeginDelete := fun _ name w => (None, delete name w);
  disksClient_Get := fun _ _ w => (demoDisk, None, w);
  base64_EncodeToString := fun s => s;
  ProvisioningStateSucceeded := "Succeeded";
  AsVMInfo := fun info => (info, None);
  handleAzureRequestError := fun err action =>
    (match err with External "ResourceNotFound" => true | _ => false end,
     FatalError (ErrorfW ("error from azure while " +:+ action +:+ ": ") err));
  cloudinit_New := fun config => ("#cloud-config", None);
  ensureSnapshotForVMRootVolume := fun _ _ w => (tt, None, w);
  ensureManagedDiskFromSnapshot := fun _ _ w => (demoDisk, None, w);
  ensureManagedDiskFromSnapshotInDifferentRegion := fun _ _ w => (demoDisk, None, w);
  ensureNetworkInterface := fun _ w => (mkInterface "/nic/scanner", None, w);
  ensureDeleted := fun _ getFunc deleteFunc estimateTime w =>
    match getFunc w with
    | (Some _, w') => (None, w')
    | (None, w') =>
        match deleteFunc w' with
        | (Some err, w'') => (Some err, w'')
        | (None, w'') => (Some (RetryableError estimateTime (Errorf "delete issued")), w'')
        end
    end;
  ensureNetworkInterfaceDeleted := fun _ w => (None, w);
  ensureTargetDiskDeleted := fun _ w => (None, w);
  ensureBlobDeleted := fun _ w => (None, w);
  ensureSnapshotDeleted := fun _ w => (None, w)
}.

Definition demoInfo (instanceID : string) : VMInfo :=
  mkVMInfo "VMInfo" "Azure" instanceID "" "" 0 "eastus" "Linux" [] [].

Definition demoJob : ScanJobConfig VMInfo := mkScanJobConfig "result-1" (demoInfo "not/an/instance/id").

Definition demoCloud (state : string) : gmap string VirtualMachine :=
  {[ "vmclarity-scanner-result-1" := demoVM "vmclarity-scanner-result-1" state ]}.

(** On a cloud where the scanner VM is there and Succeeded, two calls in
    succession return it and issue two gets and nothing else; where it is
    still Creating, the call asks to retry after two minutes. *)
Lemma ensureScannerVirtualMachine_idempotent_witness :
  (let st1 := mkSt (demoCloud "Succeeded") [CallVMGet "scanners" "vmclarity-scanner-result-1"] in
   ensureScannerVirtualMachine demoJob (mkInterface "/nic/scanner") (mkSt (demoCloud "Succeeded") [])
   = ((demoVM "vmclarity-scanner-result-1" "Succeeded", None), st1)
   /\ ensureScannerVirtualMachine demoJob (mkInterface "/nic/scanner") st1
      = ((demoVM "vmclarity-scanner-result-1" "Succeeded", None),
         mkSt (demoCloud "Succeeded") [CallVMGet "scanners" "vmclarity-scanner-result-1";
                                       CallVMGet "scanners" "vmclarity-scanner-result-1"]))
  /\ exists e,
      ensureScannerVirtualMachine demoJob (mkInterface "/nic/scanner") (mkSt (demoCloud "Creating") [])
      = ((demoVM "vmclarity-scanner-result-1" "Creating",
          Some (RetryableError 120000000000 e)),
         mkSt (demoCloud "Creating") [CallVMGet "scanners" "vmclarity-scanner-result-1"]).
Proof.
  split.
  - destruct (ensureScannerVirtualMachine_idempotent
                demoJob (mkInterface "/nic/scanner") (mkSt (demoCloud "Succeeded") [])
                (demoVM "vmclarity-scanner-result-1" "Succeeded") (demoCloud "Succeeded"))
      as [Hok _]; [reflexivity|].
    destruct Hok as [Hfirst Hsecond]; [reflexivity|].
    split; [exact Hfirst|].
    apply (Hsecond (demoVM "vmclarity-scanner-result-1" "Succeeded") (demoCloud "Succeeded"));
      reflexivity.
  - destruct (ensureScannerVirtualMachine_idempotent
                demoJob (mkInterface "/nic/scanner") (mkSt (demoCloud "Creating") [])
                (demoVM "vmclarity-scanner-result-1" "Creating") (demoCloud "Creating"))
      as [_ Hwait]; [reflexivity|].
    apply Hwait. discriminate.
Defined.

(** The instance id of the source's comment has nine parts and parses;
    "not/an/instance/id" has four, and [RunTargetScan] on it stops with a
    fatal error before any call. *)
Lemma instance_id_parsing_witness :
  (exists resourceGroup vmName,
      resourceGroupAndNameFromInstanceID
        "/subscriptions/ecad88af-09d5-4725-8d80-906e51fddf02/resourceGroups/vmclarity-sambetts-dev/providers/Microsoft.Compute/virtualMachines/vmclarity-server"
      = (resourceGroup, vmName, None)
      /\ strings_Split
           "/subscriptions/ecad88af-09d5-4725-8d80-906e51fddf02/resourceGroups/vmclarity-sambetts-dev/providers/Microsoft.Compute/virtualMachines/vmclarity-server"
           "/" !! 4%nat = Some resourceGroup
      /\ strings_Split
           "/subscriptions/ecad88af-09d5-4725-8d80-906e51fddf02/resourceGroups/vmclarity-sambetts-dev/providers/Microsoft.Compute/virtualMachines/vmclarity-server"
           "/" !! 8%nat = Some vmName)
  /\ exists e, RunTargetScan demoJob (mkSt (demoCloud "Succeeded") [])
               = (Some (FatalError e), mkSt (demoCloud "Succeeded") []).
Proof.
  split.
  - apply (proj1 (instance_id_parsing (c := demoClient) _)). reflexivity.
  - destruct (proj2 (instance_id_parsing (c := demoClient) "not/an/instance/id")) as (e & _ & Hrun).
    + vm_compute. discriminate.
    + exists e. apply (Hrun demoJob (demoInfo "not/an/instance/id")); reflexivity.
Defined.

(** A cloud in which everything a scan of [web-1] needs is ready. *)
Definition readyJob : ScanJobConfig VMInfo :=
  mkScanJobConfig "result-1" (demoInfo (azureVMID "sub-1" "prod" "web-1")).

Definition readyCloud : gmap string VirtualMachine :=
  <["web-1" := demoVM "web-1" "Succeeded"]> (demoCloud "Succeeded").

Definition readyState : St (gmap string VirtualMachine) := mkSt readyCloud [].

Lemma ensureScannerVirtualMachine_succeeds_only_when_ready_witness :
  exists w',
    vmClient_Get "scanners" "vmclarity-scanner-result-1" readyCloud
    = (demoVM "vmclarity-scanner-result-1" "Succeeded", None, w')
    /\ vmProvisioningState (demoVM "vmclarity-scanner-result-1" "Succeeded") = "Succeeded"
    /\ snd (ensureScannerVirtualMachine readyJob (mkInterface "/nic/scanner") readyState)
       = mkSt w' [CallVMGet "scanners" "vmclarity-scanner-result-1"].
Proof.
  refine (ensureScannerVirtualMachine_succeeds_only_when_ready
            readyJob (mkInterface "/nic/scanner") readyState
            (snd (ensureScannerVirtualMachine readyJob (mkInterface "/nic/scanner") readyState))
            (demoVM "vmclarity-scanner-result-1" "Succeeded") _).
  vm_compute. reflexivity.
Defined.



Lemma instance_id_round_trip_witness :
  resourceGroupAndNameFromInstanceID (azureVMID "sub-1" "prod" "web-1") = ("prod", "web-1", None)
  /\ exists e,
      resourceGroupAndNameFromInstanceID (azureVMID "sub-1" "prod" "web/1")
      = ("", "", Some (FatalError e)).
Proof.
  split.
  - apply (proj1 (instance_id_round_trip "sub-1" "prod" "web-1")). reflexivity.
  - apply (proj2 (instance_id_round_trip "sub-1" "prod" "web/1")). vm_compute. discriminate.
Defined.

(** A subscription with three VMs in two resource groups; the scope asks
    for the VMs tagged [env:prod] of both groups. *)
Definition namedVM (id : string) (tags : gmap string string) : VirtualMachine :=
  mkVirtualMachine id "" "" "" tags "" "" None (mkOSDisk "" "" "" "" "" "") []
                   (mkOSProfile "" "" false []) [] "" 0 "".

Definition vmA : VirtualMachine := namedVM "/vm/a" (<["env" := "prod"]> ∅).
Definition vmB : VirtualMachine := namedVM "/vm/b" (<["env" := "test"]> ∅).
Definition vmC : VirtualMachine := namedVM "/vm/c" (<["env" := "prod"]> (<["team" := "x"]> ∅)).

Definition keepVMInfo (info : VMInfo) : VMInfo * option Error := (info, None).
Definition keepScope (scope : AzureScanScope) : AzureScanScope * option Error := (scope, None).
Definition listAllDemo (made : nat) : Pager * nat :=
  ([([vmA; vmB], None); ([vmC], None)], S made).
Definition listGroupDemo (resourceGroup : string) (made : nat) : Pager * nat :=
  (if String.eqb resourceGroup "prod" then [([vmA], None)] else [([vmB], None); ([vmC], None)],
   S made).

Definition prodScope : AzureScanScope :=
  mkAzureScanScope None None (Some [mkTag "env" "prod"]) (Some ["prod"; "test"]).

Lemma DiscoverTargets_success_witness :
  map InstanceID
      (map (targetOf keepVMInfo)
           (vmsInScope prodScope (pagersFor listAllDemo listGroupDemo prodScope 0%nat)))
  = ["/vm/a"; "/vm/c"]
  /\ exists azureScanScope,
      keepScope prodScope = (azureScanScope, None)
      /\ Forall (fun page => snd page = None)
                (concat (pagersFor listAllDemo listGroupDemo azureScanScope 0%nat))
      /\ map (targetOf keepVMInfo)
             (vmsInScope prodScope (pagersFor listAllDemo listGroupDemo prodScope 0%nat))
         = map (targetOf keepVMInfo)
               (vmsInScope azureScanScope (pagersFor listAllDemo listGroupDemo azureScanScope 0%nat))
      /\ Forall (fun vm => snd (getVMInfoFromVirtualMachine keepVMInfo vm) = None)
                (vmsInScope azureScanScope (pagersFor listAllDemo listGroupDemo azureScanScope 0%nat))
      /\ (forall vm,
            In vm (vmsInScope azureScanScope
                     (pagersFor listAllDemo listGroupDemo azureScanScope 0%nat)) ->
            hasIncludeTags vm (InstanceTagSelector azureScanScope) = true
            /\ hasExcludeTags vm (InstanceTagExclusion azureScanScope) = false).
Proof.
  split; [vm_compute; reflexivity|].
  refine (DiscoverTargets_success keepVMInfo keepScope listAllDemo listGroupDemo
            prodScope 0%nat 2%nat _ _).
  vm_compute. reflexivity.
Defined.

(** A scope with neither [AllResourceGroups] nor [ResourceGroups]. *)
Example DiscoverTargets_panics_on_empty_scope :
  DiscoverTargets keepVMInfo keepScope listAllDemo listGroupDemo
                  (mkAzureScanScope None None None None) 0%nat
  = Panicked nilDereference.
Proof. reflexivity. Qed.

End Azure.

(* ===================================================================== *)
(** * Package gorm (backend/pkg/database/gorm) *)
(* ===================================================================== *)

Module Gorm.

Local Open Scope Z_scope.

(** A Go call either returns or panics. *)
Inductive Go (A : Type) : Type :=
  | Returned (a : A)
  | Panicked (reason : string).
Arguments Returned {A} _.
Arguments Panicked {A} _.

Definition nilDereference : string :=
  "runtime error: invalid memory address or nil pointer dereference".

(** [*p] *)
Definition deref {A} (p : option A) : Go A :=
  match p with
  | Some a => Returned a
  | None => Panicked nilDereference
  end.

Definition isNil {A} (p : option A) : bool :=
  match p with Some _ => false | None => true end.

(** The errors of [common] and [types], [gorm.ErrRecordNotFound], errors
    made outside the package, and [fmt.Errorf] with a [%w] operand. *)
Inductive Error : Type :=
  | BadRequestError (Reason : string)
  | ConflictError (Reason : string)
  | PreconditionFailedError (Reason : string)
  | ErrNotFound
  | ErrRecordNotFound
  | External (msg : string)
  | ErrorfW (msg : string) (cause : Error).

(** Go's [int]: 64 bits, two's complement. *)
Definition wrapInt (z : Z) : Z := (z + 2 ^ 63) mod 2 ^ 64 - 2 ^ 63.

(** [%d] *)
Definition formatInt (z : Z) : string := pretty z.

(* --------------------------------------------------------------------- *)
(** ** common.go *)
(* --------------------------------------------------------------------- *)

Definition checkRevisionEtag (ifMatch revision : option Z) : Go (option Error) :=
  if (negb (isNil ifMatch) && negb (isNil revision)
      && match ifMatch, revision with
         | Some i, Some r => negb (Z.eqb i r)
         | _, _ => false
         end)
     || (negb (isNil ifMatch) && isNil revision)
  then
    (* the operands of Sprintf: *revision, *ifMatch *)
    match deref revision with
    | Panicked reason => Panicked reason
    | Returned r =>
        match deref ifMatch with
        | Panicked reason => Panicked reason
        | Returned i =>
            Returned (Some (PreconditionFailedError
                              ("Revision " +:+ formatInt r +:+ " does not match " +:+ formatInt i
                               +:+ ". The object may have been modified since you started the request.")))
        end
    end
  else Returned None.

Definition bumpRevision (oldrevision : option Z) : option Z :=
  match oldrevision with
  | Some r => Some (wrapInt (r + 1))
  | None => Some 1
  end.

(* --------------------------------------------------------------------- *)
(** ** Revisions *)
(* --------------------------------------------------------------------- *)

Lemma checkRevisionEtag_absent (revision : option Z) :
  checkRevisionEtag None revision = Returned None.
Proof. destruct revision; reflexivity. Qed.

Lemma checkRevisionEtag_stored (ifMatch revision : Z) :
  checkRevisionEtag (Some ifMatch) (Some revision)
  = if Z.eqb ifMatch revision then Returned None
    else Returned (Some (PreconditionFailedError
                           ("Revision " +:+ formatInt revision +:+ " does not match "
                            +:+ formatInt ifMatch
                            +:+ ". The object may have been modified since you started the request."))).
Proof. unfold checkRevisionEtag. cbn. destruct (Z.eqb ifMatch revision); reflexivity. Qed.

Lemma bumpRevision_stored (revision : Z) :
  - 2 ^ 63 <= revision < 2 ^ 63 - 1 -> bumpRevision (Some revision) = Some (revision + 1).
Proof.
  intros H. unfold bumpRevision, wrapInt. f_equal.
  rewrite Z.mod_small; lia.
Qed.

Lemma bumpRevision_nil : bumpRevision None = Some 1.
Proof. reflexivity. Qed.

(** C10.  With an If-Match value and a stored revision that is nil,
    [checkRevisionEtag] does not return the [PreconditionFailedError] its
    condition selects: building the error's reason dereferences the nil
    revision, and the call panics. *)
Theorem checkRevisionEtag_nil_revision_panics (ifMatch : Z) :
  checkRevisionEtag (Some ifMatch) None = Panicked nilDereference.
Proof. reflexivity. Qed.

(* --------------------------------------------------------------------- *)
(** ** The API model and the database *)
(* --------------------------------------------------------------------- *)

Record ScanRelationship : Type := mkScanRelationship { scanId : string }.
Record TargetRelationship : Type := mkTargetRelationship { targetId : string }.

(** [models.TargetScanResult]: the fields the table handler reads, and the
    rest of the document. *)
Record TargetScanResult : Type := mkTargetScanResult {
  Id : option string;
  Revision : option Z;
  Scan : option ScanRelationship;
  Target : option TargetRelationship;
  Other : string
}.

(** [models.TargetScanResult{}] *)
Definition emptyTargetScanResult : TargetScanResult := mkTargetScanResult None None None None "".

Definition setId (r : TargetScanResult) (id : option string) : TargetScanResult :=
  mkTargetScanResult id (Revision r) (Scan r) (Target r) (Other r).
Definition setRevision (r : TargetScanResult) (revision : option Z) : TargetScanResult :=
  mkTargetScanResult (Id r) revision (Scan r) (Target r) (Other r).

(** A row of the table: [ScanResult{ODataObject}] with its JSON [Data]. *)
Record ScanResult (Bytes : Type) : Type := mkScanResult { Data : Bytes }.
Arguments mkScanResult {Bytes} _.
Arguments Data {Bytes} _.

Record PutScanResultsScanResultIDParams : Type := mkPutParams { IfMatch : option Z }.

Definition targetScanResultsSchemaName : string := "TargetScanResult".

(** What the handler calls: [uuid.New().String()], [ODataQuery] for a
    collection and for one object (not in the sources), [DB.Create],
    [DB.Save], [json.Marshal] and [json.Unmarshal].  Each call on the
    database steps the [World] and returns Go's [(value, err)]. *)
Class Database (World Bytes : Type) : Type := {
  uuid_New : World -> string * World;
  ODataQuery_Find : string -> string -> World -> (list (ScanResult Bytes) * option Error) * World;
  ODataQuery_First : string -> string -> World -> (ScanResult Bytes * option Error) * World;
  DB_Create : ScanResult Bytes -> World -> option Error * World;
  DB_Save : ScanResult Bytes -> World -> option Error * World;
  json_Marshal : TargetScanResult -> Bytes * option Error;
  json_Unmarshal : Bytes -> TargetScanResult * option Error
}.

(** The calls a handler made, in order. *)
Inductive Call (Bytes : Type) : Type :=
  | CallUUID (id : string)
  | CallFind (schema filter : string)
  | CallFirst (schema filter : string)
  | CallCreate (row : ScanResult Bytes)
  | CallSave (row : ScanResult Bytes).
Arguments CallUUID {Bytes} _.
Arguments CallFind {Bytes} _ _.
Arguments CallFirst {Bytes} _ _.
Arguments CallCreate {Bytes} _.
Arguments CallSave {Bytes} _.

Record St (World Bytes : Type) : Type := mkSt { world : World; calls : list (Call Bytes) }.
Arguments mkSt {World Bytes} _ _.
Arguments world {World Bytes} _.
Arguments calls {World Bytes} _.

(** Computations that step the database, record their calls and may panic. *)
Definition M (World Bytes A : Type) : Type := St World Bytes -> Go (A * St World Bytes).

#[global] Instance GormM_ret {World Bytes} : MRet (M World Bytes) :=
  fun A a st => Returned (a, st).
#[global] Instance GormM_bind {World Bytes} : MBind (M World Bytes) :=
  fun A B f m st =>
    match m st with
    | Returned (a, st') => f a st'
    | Panicked reason => Panicked reason
    end.

Definition lift {World Bytes A} (g : Go A) : M World Bytes A :=
  fun st => match g with Returned a => Returned (a, st) | Panicked reason => Panicked reason end.

Definition call {World Bytes A} (c : A -> Call Bytes) (f : World -> A * World) : M World Bytes A :=
  fun st => let '(a, w) := f (world st) in Returned (a, mkSt w (calls st ++ [c a])).

(** [errors.As(err, &conflictErr)] *)
Fixpoint isConflictError (err : Error) : bool :=
  match err with
  | ConflictError _ => true
  | ErrorfW _ cause => isConflictError cause
  | _ => false
  end.

(** [errors.Is(err, gorm.ErrRecordNotFound)] *)
Fixpoint isRecordNotFound (err : Error) : bool :=
  match err with
  | ErrRecordNotFound => true
  | ErrorfW _ cause => isRecordNotFound cause
  | _ => false
  end.

Definition uniquenessFilter (id target scan : string) : string :=
  "id ne '" +:+ id +:+ "' and target/id eq '" +:+ target +:+ "' and scan/id eq '" +:+ scan +:+ "'".

Definition conflictReason (target scan : string) : string :=
  "Scan results exists with same target id=" +:+ target +:+ " and scan id=" +:+ scan +:+ ")".

Section Handler.

Context {World Bytes : Type} `{db : Database World Bytes}.

Abbreviation result := (TargetScanResult * option Error)%type.

Definition checkUniqueness (scanResult : TargetScanResult) : M World Bytes result :=
  (* the operands of Sprintf: *scanResult.Id, scanResult.Target.Id, scanResult.Scan.Id *)
  id ← lift (deref (Id scanResult));
  target ← lift (deref (Target scanResult));
  scan ← lift (deref (Scan scanResult));
  let filter := uniquenessFilter id (targetId target) (scanId scan) in
  '(scanResults, err) ← call (fun _ => CallFind targetScanResultsSchemaName filter)
                             (ODataQuery_Find targetScanResultsSchemaName filter);
  match err with
  | Some err => mret (emptyTargetScanResult, Some err)
  | None =>
      match scanResults with
      | first :: _ =>
          let '(tsr, err) := json_Unmarshal (Data first) in
          match err with
          | Some err =>
              mret (emptyTargetScanResult,
                    Some (ErrorfW "failed to convert DB model to API model: " err))
          | None =>
              mret (tsr, Some (ConflictError (conflictReason (targetId target) (scanId scan))))
          end
      | [] => mret (emptyTargetScanResult, None)
      end
  end.

(** The user-provided scan id and target id fields are there. *)
Definition scanIdMissing (scanResult : TargetScanResult) : bool :=
  match Scan scanResult with Some scan => String.eqb (scanId scan) "" | None => false end.
Definition targetIdMissing (scanResult : TargetScanResult) : bool :=
  match Target scanResult with Some target => String.eqb (targetId target) "" | None => false end.

Definition CreateScanResult (scanResult : TargetScanResult) : M World Bytes result :=
  if scanIdMissing scanResult
  then mret (emptyTargetScanResult, Some (BadRequestError "scan.id is a required field"))
  else if targetIdMissing scanResult
  then mret (emptyTargetScanResult, Some (BadRequestError "target.id is a required field"))
  else if negb (isNil (Id scanResult))
  then mret (emptyTargetScanResult,
             Some (BadRequestError "can not specify id field when creating a new ScanResult"))
  else
    (* Generate a new UUID *)
    id ← call CallUUID uuid_New;
    let scanResult := setId scanResult (Some id) in
    (* Initialise revision *)
    let scanResult := setRevision scanResult (Some 1) in
    '(existingScanResult, err) ← checkUniqueness scanResult;
    match err with
    | Some err =>
        if isConflictError err then mret (existingScanResult, Some err)
        else mret (emptyTargetScanResult, Some (ErrorfW "failed to check existing scan: " err))
    | None =>
        let '(marshaled, err) := json_Marshal scanResult in
        match err with
        | Some err =>
            mret (emptyTargetScanResult,
                  Some (ErrorfW "failed to convert API model to DB model: " err))
        | None =>
            let newScanResult := mkScanResult marshaled in
            err ← call (fun _ => CallCreate newScanResult) (DB_Create newScanResult);
            match err with
            | Some err =>
                mret (emptyTargetScanResult,
                      Some (ErrorfW "failed to create scan result in db: " err))
            | None =>
                let '(tsr, err) := json_Unmarshal (Data newScanResult) in
                match err with
                | Some err =>
                    mret (emptyTargetScanResult,
                          Some (ErrorfW "failed to convert DB model to API model: " err))
                | None => mret (tsr, None)
                end
            end
        end
    end.

Definition getExistingObjByID (schema objID : string)
    : M World Bytes (ScanResult Bytes * option Error) :=
  let filter := "id eq '" +:+ objID +:+ "'" in
  '(obj, err) ← call (fun _ => CallFirst schema filter) (ODataQuery_First schema filter);
  match err with
  | Some err => if isRecordNotFound err then mret (obj, Some ErrNotFound) else mret (obj, Some err)
  | None => mret (obj, None)
  end.

Definition SaveScanResult (scanResult : TargetScanResult)
    (params : PutScanResultsScanResultIDParams) : M World Bytes result :=
  if isNil (Id scanResult) || match Id scanResult with Some id => String.eqb id "" | None => false end
  then mret (emptyTargetScanResult, Some (BadRequestError "id is required to save scan result"))
  else if scanIdMissing scanResult
  then mret (emptyTargetScanResult, Some (BadRequestError "scan.id is a required field"))
  else if targetIdMissing scanResult
  then mret (emptyTargetScanResult, Some (BadRequestError "target.id is a required field"))
  else
    '(existingScanResult, err) ← checkUniqueness scanResult;
    match err with
    | Some err =>
        if isConflictError err then mret (existingScanResult, Some err)
        else mret (emptyTargetScanResult, Some (ErrorfW "failed to check existing scan: " err))
    | None =>
        id ← lift (deref (Id scanResult));
        '(dbObj, err) ← getExistingObjByID targetScanResultsSchemaName id;
        match err with
        | Some err => mret (emptyTargetScanResult, Some err)
        | None =>
            let '(dbScanResult, err) := json_Unmarshal (Data dbObj) in
            match err with
            | Some err =>
                mret (emptyTargetScanResult,
                      Some (ErrorfW "failed to convert DB model to API model: " err))
            | None =>
                err ← lift (checkRevisionEtag (IfMatch params) (Revision dbScanResult));
                match err with
                | Some err => mret (emptyTargetScanResult, Some err)
                | None =>
                    let scanResult := setRevision scanResult (bumpRevision (Revision dbScanResult)) in
                    let '(marshaled, err) := json_Marshal scanResult in
                    match err with
                    | Some err =>
                        mret (emptyTargetScanResult,
                              Some (ErrorfW "failed to convert API model to DB model: " err))
                    | None =>
                        let dbObj := mkScanResult marshaled in
                        err ← call (fun _ => CallSave dbObj) (DB_Save dbObj);
                        match err with
                        | Some err =>
                            mret (emptyTargetScanResult,
                                  Some (ErrorfW "failed to save scan result in db: " err))
                        | None =>
                            let '(tsr, err) := json_Unmarshal (Data dbObj) in
                            match err with
                            | Some err =>
                                mret (emptyTargetScanResult,
                                      Some (ErrorfW "failed to convert DB model to API model: " err))
                            | None => mret (tsr, None)
                            end
                        end
                    end
                end
            end
        end
    end.

(** Unfold the monad in the goal or in a hypothesis. *)
Ltac run_gorm :=
  unfold mbind, GormM_bind, mret, GormM_ret, call, lift, deref; cbn [world calls Id Revision Scan Target Other setId setRevision].

(* --------------------------------------------------------------------- *)
(** ** Creating a scan result *)
(* --------------------------------------------------------------------- *)

(** Encoding a document and decoding it again keeps its id and revision. *)
Hypothesis json_keeps_id_and_revision :
  forall x data y,
    json_Marshal x = (data, None) -> json_Unmarshal data = (y, None) ->
    Id y = Id x /\ Revision y = Revision x.




(* --------------------------------------------------------------------- *)
(** ** Further properties of the table handler *)
(* --------------------------------------------------------------------- *)

(** X11.  With a stored revision [checkRevisionEtag] never panics: it
    returns nil exactly when no If-Match is given or the If-Match equals
    the stored revision, and a [PreconditionFailedError] for any other
    If-Match. *)
Theorem checkRevisionEtag_with_stored_revision (ifMatch : option Z) (revision : Z) :
  (checkRevisionEtag ifMatch (Some revision) = Returned None
   <-> ifMatch = None \/ ifMatch = Some revision)
  /\ (checkRevisionEtag ifMatch (Some revision) <> Returned None ->
      exists reason,
        checkRevisionEtag ifMatch (Some revision)
        = Returned (Some (PreconditionFailedError reason))).
Proof.
  destruct ifMatch as [i|]; [rewrite checkRevisionEtag_stored | rewrite checkRevisionEtag_absent].
  - destruct (Z.eqb_spec i revision) as [-> | Hne]; split.
    + split; auto.
    + intros H. contradiction.
    + split; [discriminate|]. intros [[=] | [= ->]]. contradiction.
    + intros _. eexists. reflexivity.
  - split; [split; auto | intros H; contradiction].
Qed.

Lemma wrapInt_succ (r : Z) :
  - 2 ^ 63 <= r < 2 ^ 63 ->
  wrapInt (r + 1) = (if Z.eqb r (2 ^ 63 - 1) then - 2 ^ 63 else r + 1).
Proof.
  intros H. unfold wrapInt. destruct (Z.eqb_spec r (2 ^ 63 - 1)) as [-> | Hne].
  - reflexivity.
  - rewrite Z.mod_small; lia.
Qed.

(** X12.  [bumpRevision] never returns nil: the first revision is 1, a
    revision below the largest [int] grows by one and the largest wraps
    to the smallest.  The bumped revision always differs from the old
    one, so after a bump [checkRevisionEtag] refuses an If-Match that
    holds the old revision and accepts one that holds the new. *)
Theorem bumpRevision_makes_old_revision_stale (r : Z) :
  - 2 ^ 63 <= r < 2 ^ 63 ->
  bumpRevision None = Some 1
  /\ bumpRevision (Some r) = Some (if Z.eqb r (2 ^ 63 - 1) then - 2 ^ 63 else r + 1)
  /\ exists r',
      bumpRevision (Some r) = Some r' /\ r' <> r
      /\ checkRevisionEtag (Some r') (bumpRevision (Some r)) = Returned None
      /\ exists reason,
          checkRevisionEtag (Some r) (bumpRevision (Some r))
          = Returned (Some (PreconditionFailedError reason)).
Proof.
  intros H. split; [reflexivity|].
  assert (Hb : bumpRevision (Some r) = Some (if Z.eqb r (2 ^ 63 - 1) then - 2 ^ 63 else r + 1)).
  { unfold bumpRevision. rewrite (wrapInt_succ r H). reflexivity. }
  split; [exact Hb|].
  exists (if Z.eqb r (2 ^ 63 - 1) then - 2 ^ 63 else r + 1).
  assert (Hne : (if Z.eqb r (2 ^ 63 - 1) then - 2 ^ 63 else r + 1) <> r).
  { destruct (Z.eqb_spec r (2 ^ 63 - 1)); lia. }
  split; [exact Hb|]. split; [exact Hne|]. rewrite Hb, !checkRevisionEtag_stored.
  rewrite Z.eqb_refl. split; [reflexivity|].
  destruct (Z.eqb_spec r (if Z.eqb r (2 ^ 63 - 1) then - 2 ^ 63 else r + 1)) as [Heq|_].
  - exfalso. apply Hne. symmetry. exact Heq.
  - eexists. reflexivity.
Qed.

(** The filter of [getExistingObjByID]. *)
Definition idFilter (objID : string) : string := "id eq '" +:+ objID +:+ "'".

Lemma checkUniqueness_ok_inv (scanResult : TargetScanResult) (st st' : St World Bytes)
    (existing : TargetScanResult) :
  checkUniqueness scanResult st = Returned ((existing, None), st') ->
  exists id s t,
    Id scanResult = Some id /\ Scan scanResult = Some s /\ Target scanResult = Some t
    /\ ODataQuery_Find targetScanResultsSchemaName
                       (uniquenessFilter id (targetId t) (scanId s)) (world st)
       = ([], None, world st')
    /\ calls st' = calls st ++ [CallFind targetScanResultsSchemaName
                                          (uniquenessFilter id (targetId t) (scanId s))].
Proof.
  unfold checkUniqueness. run_gorm.
  destruct (Id scanResult) as [id|]; [|discriminate].
  destruct (Target scanResult) as [t|]; [|discriminate].
  destruct (Scan scanResult) as [s|]; [|discriminate].
  destruct (ODataQuery_Find _ _ (world st)) as [[found [qerr|]] w1] eqn:Hfind; [discriminate|].
  destruct found as [|first rest].
  - intros [= <- <-]. exists id, s, t. repeat split. exact Hfind.
  - destruct (json_Unmarshal (Data first)) as [x [e|]]; discriminate.
Qed.



End Handler.

(* --------------------------------------------------------------------- *)
(** ** Patching a scan result *)
(* --------------------------------------------------------------------- *)

(** [jsonpatch.MergePatch], and the empty byte slice [[]byte{}]. *)
Class JSONPatch (Bytes : Type) : Type := {
  jsonpatch_MergePatch : Bytes -> Bytes -> Bytes * option Error;
  noBytes : Bytes
}.

Record PatchScanResultsScanResultIDParams : Type := mkPatchParams { patchIfMatch : option Z }.

(** The errors the REST layer answers with a 4xx status. *)
Definition isClientError (e : Error) : bool :=
  match e with
  | BadRequestError _ | ConflictError _ | PreconditionFailedError _ | ErrNotFound => true
  | _ => false
  end.

Section Update.

Context {World Bytes : Type} `{db : Database World Bytes} `{patch : JSONPatch Bytes}.

Definition patchObject (original : Bytes) (newobject : TargetScanResult) : Bytes * option Error :=
  let '(marshaled, err) := json_Marshal newobject in
  match err with
  | Some err => (noBytes, Some (ErrorfW "failed to marshal API model to DB model: " err))
  | None =>
      (* Apply the input doc as a json patch to the doc stored in the DB *)
      let '(updated, err) := jsonpatch_MergePatch original marshaled in
      match err with
      | Some err => (noBytes, Some (ErrorfW "failed to apply patch to existing data: " err))
      | None => (updated, None)
      end
  end.

Definition UpdateScanResult (scanResult : TargetScanResult)
    (params : PatchScanResultsScanResultIDParams)
    : M World Bytes (TargetScanResult * option Error) :=
  if isNil (Id scanResult) || match Id scanResult with Some id => String.eqb id "" | None => false end
  then mret (emptyTargetScanResult, Some (BadRequestError "id is required to update scan result"))
  else
    id ← lift (deref (Id scanResult));
    '(dbObj, err) ← getExistingObjByID targetScanResultsSchemaName id;
    match err with
    | Some err => mret (emptyTargetScanResult, Some err)
    | None =>
        let '(dbScanResult, err) := json_Unmarshal (Data dbObj) in
        match err with
        | Some err =>
            mret (emptyTargetScanResult,
                  Some (ErrorfW "failed to convert DB model to API model: " err))
        | None =>
            err ← lift (checkRevisionEtag (patchIfMatch params) (Revision dbScanResult));
            match err with
            | Some err => mret (emptyTargetScanResult, Some err)
            | None =>
                let scanResult := setRevision scanResult (bumpRevision (Revision dbScanResult)) in
                let '(data, err) := patchObject (Data dbObj) scanResult in
                match err with
                | Some err =>
                    mret (emptyTargetScanResult, Some (ErrorfW "failed to apply patch: " err))
                | None =>
                    let dbObj := mkScanResult data in
                    let '(tsr, err) := json_Unmarshal (Data dbObj) in
                    match err with
                    | Some err =>
                        mret (emptyTargetScanResult,
                              Some (ErrorfW "failed to convert DB model to API model: " err))
                    | None =>
                        (* Check the existing DB entries to ensure that the scan id and
                           target id fields are unique *)
                        '(existingScanResult, err) ← checkUniqueness tsr;
                        match err with
                        | Some err =>
                            if isConflictError err then mret (existingScanResult, Some err)
                            else mret (emptyTargetScanResult,
                                       Some (ErrorfW "failed to check existing scan: " err))
                        | None =>
                            err ← call (fun _ => CallSave dbObj) (DB_Save dbObj);
                            match err with
                            | Some err =>
                                mret (emptyTargetScanResult,
                                      Some (ErrorfW "failed to save scan result in db: " err))
                            | None => mret (tsr, None)
                            end
                        end
                    end
                end
            end
        end
    end.

(** Unfold the handlers and the monad in a hypothesis, and split on the
    first thing the run depends on, until the run is decided. *)
Ltac unfold_handlers_in H :=
  unfold CreateScanResult, SaveScanResult, UpdateScanResult, checkUniqueness,
    getExistingObjByID, patchObject, scanIdMissing, targetIdMissing,
    mbind, GormM_bind, mret, GormM_ret, call, lift, deref in H.
Ltac decide_run H :=
  repeat first
    [ discriminate H
    | progress cbn [world calls Data fst snd isNil orb negb
                    Id Revision Scan Target setId setRevision] in H
    | match type of H with
      | context [match ?x with _ => _ end] =>
          lazymatch x with
          | context [match _ with _ => _ end] => fail
          | _ => destruct x eqn:?
          end
      end ].

(** The calls that write to the table. *)
Definition isWrite (c : Call Bytes) : bool :=
  match c with CallCreate _ | CallSave _ => true | _ => false end.

(** A run of one of the three handlers that change the table. *)
Definition isHandlerRun (m : M World Bytes (TargetScanResult * option Error)) : Prop :=
  (exists scanResult, m = CreateScanResult scanResult)
  \/ (exists scanResult params, m = SaveScanResult scanResult params)
  \/ (exists scanResult params, m = UpdateScanResult scanResult params).

(** X14.  When [CreateScanResult], [SaveScanResult] or [UpdateScanResult]
    returns a [BadRequestError], a [ConflictError], a
    [PreconditionFailedError] or [ErrNotFound] itself, it has made no call
    that writes to the table: no [DB.Create] and no [DB.Save]. *)
Theorem refused_requests_write_nothing
    (m : M World Bytes (TargetScanResult * option Error)) (st st' : St World Bytes)
    (r : TargetScanResult) (e : Error) :
  isHandlerRun m ->
  m st = Returned ((r, Some e), st') ->
  isClientError e = true ->
  exists made, calls st' = calls st ++ made /\ existsb isWrite made = false.
Proof.
  intros [(scanResult & ->) | [(scanResult & params & ->) | (scanResult & params & ->)]] Hrun Hclient;
    unfold_handlers_in Hrun; decide_run Hrun;
    injection Hrun as <- <- <-; try discriminate Hclient;
    cbn [calls]; rewrite <- ?app_assoc;
    first [ exists []; rewrite app_nil_r; split; reflexivity
          | eexists; split; [reflexivity | reflexivity] ].
Qed.


(* --------------------------------------------------------------------- *)
(** ** When the handlers panic *)
(* --------------------------------------------------------------------- *)

(** The scan and the target that the input carries have an id. *)
Definition idsGiven (scanResult : TargetScanResult) : Prop :=
  (forall s, Scan scanResult = Some s -> scanId s <> "")
  /\ (forall t, Target scanResult = Some t -> targetId t <> "").

Lemma idsGiven_iff (scanResult : TargetScanResult) :
  idsGiven scanResult <-> scanIdMissing scanResult = false /\ targetIdMissing scanResult = false.
Proof.
  unfold idsGiven, scanIdMissing, targetIdMissing.
  destruct (Scan scanResult) as [s|], (Target scanResult) as [t|];
    repeat match goal with
           | |- context [String.eqb ?a ?b] => destruct (String.eqb_spec a b)
           end;
    split; intros [H1 H2]; split; intros; try congruence;
    try (exfalso; eapply H1; eauto; fail); try (exfalso; eapply H2; eauto; fail).
Qed.

Lemma checkUniqueness_panics_iff (scanResult : TargetScanResult) (st : St World Bytes) :
  (exists reason, checkUniqueness scanResult st = Panicked reason)
  <-> Id scanResult = None \/ Scan scanResult = None \/ Target scanResult = None.
Proof.
  unfold checkUniqueness, mbind, GormM_bind, mret, GormM_ret, call, lift, deref.
  destruct (Id scanResult) as [id|]; [|split; [auto | eexists; reflexivity]].
  destruct (Target scanResult) as [t|]; [|split; [auto | eexists; reflexivity]].
  destruct (Scan scanResult) as [s|]; [|split; [auto | eexists; reflexivity]].
  cbn [world calls].
  destruct (ODataQuery_Find _ _ (world st)) as [[found [qerr|]] w1].
  - split; [intros [? [=]] | intros [[=] | [[=] | [=]]]].
  - destruct found as [|first rest]; [|destruct (json_Unmarshal (Data first)) as [x [e|]]];
      (split; [intros [? [=]] | intros [[=] | [[=] | [=]]]]).
Qed.

Lemma checkUniqueness_ok (scanResult : TargetScanResult) (st : St World Bytes)
    (id : string) (s : ScanRelationship) (t : TargetRelationship) (w : World) :
  Id scanResult = Some id -> Scan scanResult = Some s -> Target scanResult = Some t ->
  ODataQuery_Find targetScanResultsSchemaName (uniquenessFilter id (targetId t) (scanId s)) (world st)
  = ([], None, w) ->
  checkUniqueness scanResult st
  = Returned ((emptyTargetScanResult, None),
              mkSt w (calls st ++ [CallFind targetScanResultsSchemaName
                                            (uniquenessFilter id (targetId t) (scanId s))])).
Proof.
  intros Hid Hs Ht Hfind.
  unfold checkUniqueness, mbind, GormM_bind, mret, GormM_ret, call, lift, deref.
  rewrite Hid, Ht, Hs, Hfind. reflexivity.
Qed.

Lemma checkRevisionEtag_panics_iff (ifMatch revision : option Z) :
  (exists reason, checkRevisionEtag ifMatch revision = Panicked reason)
  <-> (exists i, ifMatch = Some i) /\ revision = None.
Proof.
  destruct ifMatch as [i|]; [|rewrite checkRevisionEtag_absent].
  - destruct revision as [r|]; [rewrite checkRevisionEtag_stored; destruct (Z.eqb i r)|].
    + split; [intros [? [=]] | intros [_ [=]]].
    + split; [intros [? [=]] | intros [_ [=]]].
    + split; [intros _; split; [exists i|]; reflexivity | intros _; eexists; reflexivity].
  - split; [intros [? [=]] | intros [[? [=]] _]].
Qed.

(** X16.  [CreateScanResult] panics exactly when the input passes its
    checks (no id; the scan and the target that are present have an id)
    and the scan or the target is absent: the uniqueness check reads the
    ids of both without a nil check. *)
Theorem CreateScanResult_panics_iff (scanResult : TargetScanResult) (st : St World Bytes) :
  (exists reason, CreateScanResult scanResult st = Panicked reason)
  <-> Id scanResult = None /\ idsGiven scanResult
      /\ (Scan scanResult = None \/ Target scanResult = None).
Proof.
  rewrite idsGiven_iff. split.
  - intros [reason H]. unfold CreateScanResult in H.
    destruct (scanIdMissing scanResult) eqn:Hsm; [discriminate|].
    destruct (targetIdMissing scanResult) eqn:Htm; [discriminate|].
    destruct (Id scanResult) as [id0|] eqn:Hid; [discriminate|]. cbn [isNil negb] in H.
    unfold mbind, GormM_bind, mret, GormM_ret, call in H.
    destruct (uuid_New (world st)) as [id w1].
    destruct (checkUniqueness _ _) as [[[existing [uerr|]] st1]|reason'] eqn:Hu in H.
    + decide_run H.
    + decide_run H.
    + split; [reflexivity|]. split; [split; reflexivity|].
      destruct (proj1 (checkUniqueness_panics_iff _ _) (ex_intro _ _ Hu)) as [Hn | [Hn | Hn]];
        cbn in Hn; [discriminate | left | right]; exact Hn.
  - intros (Hid & [Hsm Htm] & Hmissing). unfold CreateScanResult.
    rewrite Hsm, Htm, Hid. cbn [isNil negb].
    unfold mbind, GormM_bind, mret, GormM_ret, call.
    destruct (uuid_New (world st)) as [id w1].
    edestruct (proj2 (checkUniqueness_panics_iff
                        (setRevision (setId scanResult (Some id)) (Some 1))
                        {| world := w1; calls := calls st ++ [CallUUID id] |})) as [reason Hp].
    { right. exact Hmissing. }
    rewrite Hp. eexists. reflexivity.
Qed.

(** X17.  [SaveScanResult] panics exactly when the input passes its checks
    (a non-empty id; the scan and the target that are present have an id)
    and either its scan or its target is absent, or the uniqueness query
    finds nothing, the record with that id is read and decoded, it has no
    revision, and an If-Match is given. *)
Theorem SaveScanResult_panics_iff
    (scanResult : TargetScanResult) (params : PutScanResultsScanResultIDParams)
    (st : St World Bytes) :
  (exists reason, SaveScanResult scanResult params st = Panicked reason)
  <-> exists id,
      Id scanResult = Some id /\ id <> "" /\ idsGiven scanResult
      /\ (Scan scanResult = None \/ Target scanResult = None
          \/ exists s t dbObj dbScanResult ifMatch,
               Scan scanResult = Some s /\ Target scanResult = Some t
               /\ fst (ODataQuery_Find targetScanResultsSchemaName
                         (uniquenessFilter id (targetId t) (scanId s)) (world st))
                  = ([], None)
               /\ fst (ODataQuery_First
                         targetScanResultsSchemaName (idFilter id)
                         (snd (ODataQuery_Find targetScanResultsSchemaName
                                 (uniquenessFilter id (targetId t) (scanId s)) (world st))))
                  = (dbObj, None)
               /\ json_Unmarshal (Data dbObj) = (dbScanResult, None)
               /\ IfMatch params = Some ifMatch /\ Revision dbScanResult = None).
Proof.
  split.
  - intros [reason H]. unfold SaveScanResult in H.
    destruct (Id scanResult) as [id|] eqn:Hid; cbn [isNil orb] in H; [|discriminate].
    destruct (String.eqb_spec id "") as [|Hne]; [discriminate|].
    destruct (scanIdMissing scanResult) eqn:Hsm; [discriminate|].
    destruct (targetIdMissing scanResult) eqn:Htm; [discriminate|].
    exists id. split; [reflexivity|]. split; [exact Hne|].
    split; [apply idsGiven_iff; split; assumption|].
    unfold getExistingObjByID, mbind, GormM_bind, mret, GormM_ret, call, lift, deref in H.
    destruct (checkUniqueness scanResult st) as [[[existing [uerr|]] st1]|reason'] eqn:Hu.
    + decide_run H.
    + apply checkUniqueness_ok_inv in Hu as (id' & s & t & Hid' & Hs & Ht & Hfind & Hcalls1).
      rewrite Hid in Hid'. injection Hid' as <-.
      cbn [world calls] in H. fold (idFilter id) in H.
      destruct (ODataQuery_First _ (idFilter id) (world st1)) as [[dbObj [ferr|]] w2] eqn:Hfirst;
        [decide_run H|].
      destruct (json_Unmarshal (Data dbObj)) as [dbScanResult [e|]] eqn:Hdb; [discriminate|].
      destruct (checkRevisionEtag (IfMatch params) (Revision dbScanResult))
        as [[e|]|reason'] eqn:Hetag; [discriminate | decide_run H |].
      destruct (proj1 (checkRevisionEtag_panics_iff _ _) (ex_intro _ _ Hetag)) as [[i Hi] Hrev].
      right. right. exists s, t, dbObj, dbScanResult, i.
      rewrite Hfind. cbn [fst snd]. rewrite Hfirst. cbn [fst]. repeat split; assumption.
    + destruct (proj1 (checkUniqueness_panics_iff _ _) (ex_intro _ _ Hu)) as [Hn | [Hn | Hn]];
        [rewrite Hid in Hn; discriminate | left | right; left]; exact Hn.
  - intros (id & Hid & Hne & Hgiven & Hcase). apply idsGiven_iff in Hgiven as [Hsm Htm].
    unfold SaveScanResult. rewrite Hid, Hsm, Htm. cbn [isNil orb].
    destruct (String.eqb_spec id "") as [|_]; [contradiction|].
    unfold getExistingObjByID, mbind, GormM_bind, mret, GormM_ret, call, lift, deref.
    assert (Hmissing : Scan scanResult = None \/ Target scanResult = None
                       -> exists reason, checkUniqueness scanResult st = Panicked reason).
    { intros Hm. apply checkUniqueness_panics_iff. right. exact Hm. }
    destruct Hcase as [Hn | [Hn | (s & t & dbObj & dbScanResult & i & Hs & Ht & Hfind & Hfirst & Hdb & Hi & Hrev)]].
    + destruct (Hmissing (or_introl Hn)) as [reason ->]. eexists. reflexivity.
    + destruct (Hmissing (or_intror Hn)) as [reason ->]. eexists. reflexivity.
    + destruct (ODataQuery_Find _ _ (world st)) as [[found qerr] w1] eqn:Hq.
      cbn [fst snd] in Hfind, Hfirst. injection Hfind as -> ->.
      rewrite (checkUniqueness_ok _ _ id s t w1 Hid Hs Ht Hq).
      cbn [world calls]. fold (idFilter id).
      destruct (ODataQuery_First _ (idFilter id) w1) as [[dbObj' ferr] w2].
      cbn [fst] in Hfirst. injection Hfirst as -> ->.
      rewrite Hdb, Hi, Hrev. eexists. reflexivity.
Qed.

(** X18.  [UpdateScanResult] panics exactly when the input carries a
    non-empty id, the record with that id is read and decoded, and either
    an If-Match is given and the record has no revision, or the If-Match
    is accepted, the patch is merged, and the patched document lacks its
    id, its scan or its target: the patched document is not checked before
    the uniqueness check reads them. *)
Theorem UpdateScanResult_panics_iff
    (scanResult : TargetScanResult) (params : PatchScanResultsScanResultIDParams)
    (st : St World Bytes) :
  (exists reason, UpdateScanResult scanResult params st = Panicked reason)
  <-> exists id dbObj dbScanResult,
      Id scanResult = Some id /\ id <> ""
      /\ fst (ODataQuery_First targetScanResultsSchemaName (idFilter id) (world st)) = (dbObj, None)
      /\ json_Unmarshal (Data dbObj) = (dbScanResult, None)
      /\ ((exists ifMatch, patchIfMatch params = Some ifMatch) /\ Revision dbScanResult = None
          \/ exists marshaled data tsr,
               checkRevisionEtag (patchIfMatch params) (Revision dbScanResult) = Returned None
               /\ json_Marshal (setRevision scanResult (bumpRevision (Revision dbScanResult)))
                  = (marshaled, None)
               /\ jsonpatch_MergePatch (Data dbObj) marshaled = (data, None)
               /\ json_Unmarshal data = (tsr, None)
               /\ (Id tsr = None \/ Scan tsr = None \/ Target tsr = None)).
Proof.
  split.
  - intros [reason H]. unfold UpdateScanResult in H.
    destruct (Id scanResult) as [id|] eqn:Hid; cbn [isNil orb] in H; [|discriminate].
    destruct (String.eqb_spec id "") as [|Hne]; [discriminate|].
    unfold getExistingObjByID, patchObject, mbind, GormM_bind, mret, GormM_ret, call, lift, deref in H.
    cbn [world calls] in H. fold (idFilter id) in H.
    destruct (ODataQuery_First _ (idFilter id) (world st)) as [[dbObj [ferr|]] w1] eqn:Hfirst;
      [decide_run H|].
    destruct (json_Unmarshal (Data dbObj)) as [dbScanResult [e|]] eqn:Hdb; [decide_run H|].
    exists id, dbObj, dbScanResult. rewrite Hfirst.
    split; [reflexivity|]. split; [exact Hne|]. split; [reflexivity|]. split; [exact Hdb|].
    destruct (checkRevisionEtag (patchIfMatch params) (Revision dbScanResult))
      as [[e|]|reason'] eqn:Hetag; [decide_run H | |].
    + right.
      destruct (json_Marshal _) as [marshaled [e|]] eqn:Hmarshal; [decide_run H|].
      destruct (jsonpatch_MergePatch _ _) as [data [e|]] eqn:Hmerge; [decide_run H|].
      cbn [Data] in H.
      destruct (json_Unmarshal data) as [y [e|]] eqn:Hunmarshal; [decide_run H|].
      destruct (checkUniqueness y _) as [[[existing [uerr|]] st2]|reason'] eqn:Hu;
        [decide_run H | decide_run H |].
      exists marshaled, data, y.
      do 4 (split; [first [reflexivity | assumption]|]).
      exact (proj1 (checkUniqueness_panics_iff _ _) (ex_intro _ _ Hu)).
    + left. exact (proj1 (checkRevisionEtag_panics_iff _ _) (ex_intro _ _ Hetag)).
  - intros (id & dbObj & dbScanResult & Hid & Hne & Hfirst & Hdb & Hcase).
    unfold UpdateScanResult. rewrite Hid. cbn [isNil orb].
    destruct (String.eqb_spec id "") as [|_]; [contradiction|].
    unfold getExistingObjByID, patchObject, mbind, GormM_bind, mret, GormM_ret, call, lift, deref.
    cbn [world calls]. fold (idFilter id).
    destruct (ODataQuery_First _ (idFilter id) (world st)) as [[dbObj' ferr] w1].
    cbn [fst] in Hfirst. injection Hfirst as -> ->. rewrite Hdb.
    destruct Hcase as [Hetag | (marshaled & data & tsr & Hetag & Hmarshal & Hmerge & Hun & Hlacks)].
    + destruct (proj2 (checkRevisionEtag_panics_iff _ _) Hetag) as [reason ->].
      eexists. reflexivity.
    + rewrite Hetag, Hmarshal, Hmerge. cbn [Data]. rewrite Hun.
      match goal with
      | |- context [checkUniqueness tsr ?st1] =>
          destruct (proj2 (checkUniqueness_panics_iff tsr st1) Hlacks) as [reason ->]
      end.
      eexists. reflexivity.
Qed.

End Update.

(* --------------------------------------------------------------------- *)
(** ** A concrete database *)
(* --------------------------------------------------------------------- *)

(** A table of documents kept as they are (the encoding is the identity)
    and a counter of the UUIDs issued. *)
Record DemoWorld : Type := mkDemoWorld {
  table : list (ScanResult TargetScanResult);
  issued : nat
}.

Definition demoUUID (n : nat) : string := "uuid-" +:+ pretty n.

(** The row satisfies [id ne 'X' and target/id eq 'T' and scan/id eq 'S']. *)
Definition matchesUniqueness (filter : string) (row : ScanResult TargetScanResult) : bool :=
  match Id (Data row), Target (Data row), Scan (Data row) with
  | Some rid, Some t, Some s =>
      let n := (String.length filter - String.length (uniquenessFilter "" (targetId t) (scanId s)))%nat in
      let x := substring 7 n filter in
      String.eqb filter (uniquenessFilter x (targetId t) (scanId s)) && negb (String.eqb x rid)
  | _, _, _ => false
  end.

(** The row satisfies [id eq 'X']. *)
Definition matchesId (filter : string) (row : ScanResult TargetScanResult) : bool :=
  match Id (Data row) with
  | Some rid => String.eqb filter ("id eq '" +:+ rid +:+ "'")
  | None => false
  end.

Definition sameId (a b : ScanResult TargetScanResult) : bool :=
  match Id (Data a), Id (Data b) with
  | Some x, Some y => String.eqb x y
  | _, _ => false
  end.

#[global] Instance demoDatabase : Database DemoWorld TargetScanResult := {
  uuid_New := fun w => (demoUUID (issued w), mkDemoWorld (table w) (S (issued w)));
  ODataQuery_Find := fun _ filter w => (List.filter (matchesUniqueness filter) (table w), None, w);
  ODataQuery_First := fun _ filter w =>
    match List.filter (matchesId filter) (table w) with
    | row :: _ => (row, None, w)
    | [] => (mkScanResult emptyTargetScanResult, Some ErrRecordNotFound, w)
    end;
  DB_Create := fun row w => (None, mkDemoWorld (table w ++ [row]) (issued w));
  DB_Save := fun row w =>
    (None, mkDemoWorld (map (fun old => if sameId old row then row else old) (table w)) (issued w));
  json_Marshal := fun x => (x, None);
  json_Unmarshal := fun data => (data, None)
}.



Definition storedDoc (id : string) (revision : option Z) (target scan : string) : TargetScanResult :=
  mkTargetScanResult (Some id) revision (Some (mkScanRelationship scan))
                     (Some (mkTargetRelationship target)) "".

(** One record, for target [vm-1] and scan [scan-1]. *)
Definition demoTable : DemoWorld :=
  mkDemoWorld [mkScanResult (storedDoc "a" (Some 1) "vm-1" "scan-1")] 0.


(** A stored document without a revision and a PUT with [If-Match: 1]:
    [SaveScanResult] panics in [checkRevisionEtag]. *)
Example SaveScanResult_nil_revision_panics :
  SaveScanResult (storedDoc "a" None "vm-1" "scan-1") (mkPutParams (Some 1))
                 (mkSt (mkDemoWorld [mkScanResult (storedDoc "a" None "vm-1" "scan-1")] 0) [])
  = Panicked nilDereference.
Proof. reflexivity. Qed.

(** With a stored revision the check and the bump work: revision 1 is
    accepted with [If-Match: 1] and becomes 2, and is refused with
    [If-Match: 2]. *)
Example SaveScanResult_bumps_revision :
  (exists st',
      SaveScanResult (storedDoc "a" None "vm-1" "scan-1") (mkPutParams (Some 1)) (mkSt demoTable [])
      = Returned ((storedDoc "a" (Some 2) "vm-1" "scan-1", None), st'))
  /\ (exists reason st',
        SaveScanResult (storedDoc "a" None "vm-1" "scan-1") (mkPutParams (Some 2)) (mkSt demoTable [])
        = Returned ((emptyTargetScanResult, Some (PreconditionFailedError reason)), st')).
Proof. split; repeat eexists; vm_compute; reflexivity. Qed.

(* --------------------------------------------------------------------- *)
(** ** Saving and patching on the concrete database *)
(* --------------------------------------------------------------------- *)

(** A patch replaces the fields it carries and keeps the others. *)
#[global] Instance demoPatch : JSONPatch TargetScanResult := {
  jsonpatch_MergePatch := fun original patch =>
    (mkTargetScanResult
       (match Id patch with Some x => Some x | None => Id original end)
       (match Revision patch with Some x => Some x | None => Revision original end)
       (match Scan patch with Some x => Some x | None => Scan original end)
       (match Target patch with Some x => Some x | None => Target original end)
       (if String.eqb (Other patch) "" then Other original else Other patch),
     None);
  noBytes := emptyTargetScanResult
}.

Definition demoState : St DemoWorld TargetScanResult := mkSt demoTable [].

(** Two records of scan [scan-1], for the targets [vm-1] and [vm-2]. *)
Definition twoRecords : St DemoWorld TargetScanResult :=
  mkSt (mkDemoWorld [mkScanResult (storedDoc "a" (Some 1) "vm-1" "scan-1");
                     mkScanResult (storedDoc "b" (Some 1) "vm-2" "scan-1")] 0) [].

(** A patch of record [b] that carries only a target. *)
Definition retarget (target : string) : TargetScanResult :=
  mkTargetScanResult (Some "b") None None (Some (mkTargetRelationship target)) "".

Lemma bumpRevision_makes_old_revision_stale_witness :
  bumpRevision (Some (2 ^ 63 - 1)) = Some (- 2 ^ 63)
  /\ exists reason,
      checkRevisionEtag (Some (2 ^ 63 - 1)) (bumpRevision (Some (2 ^ 63 - 1)))
      = Returned (Some (PreconditionFailedError reason)).
Proof.
  destruct (bumpRevision_makes_old_revision_stale (2 ^ 63 - 1))
    as (_ & Hbump & _ & _ & _ & _ & Hstale); [lia|].
  split; [exact Hbump | exact Hstale].
Defined.


(** A PATCH that moves record [b] to the target of record [a] is answered
    with a [ConflictError] after the read and the uniqueness query, and
    nothing is written. *)
Lemma refused_requests_write_nothing_witness :
  UpdateScanResult (retarget "vm-1") (mkPatchParams None) twoRecords
  = Returned ((storedDoc "a" (Some 1) "vm-1" "scan-1",
               Some (ConflictError (conflictReason "vm-1" "scan-1"))),
              mkSt (world twoRecords)
                   [CallFirst targetScanResultsSchemaName (idFilter "b");
                    CallFind targetScanResultsSchemaName (uniquenessFilter "b" "vm-1" "scan-1")])
  /\ exists made,
      [CallFirst targetScanResultsSchemaName (idFilter "b");
       CallFind targetScanResultsSchemaName (uniquenessFilter "b" "vm-1" "scan-1")]
      = calls twoRecords ++ made
      /\ existsb isWrite made = false.
Proof.
  split; [vm_compute; reflexivity|].
  refine (refused_requests_write_nothing
            (UpdateScanResult (retarget "vm-1") (mkPatchParams None)) twoRecords
            (mkSt (world twoRecords)
                  [CallFirst targetScanResultsSchemaName (idFilter "b");
                   CallFind targetScanResultsSchemaName (uniquenessFilter "b" "vm-1" "scan-1")])
            (storedDoc "a" (Some 1) "vm-1" "scan-1")
            (ConflictError (conflictReason "vm-1" "scan-1")) _ _ _).
  - right. right. do 2 eexists. reflexivity.
  - vm_compute. reflexivity.
  - reflexivity.
Defined.


(** A PUT without a scan, and a PATCH of a stored record that has no
    target by a document that has none either: both panic in the
    uniqueness check. *)
Example handlers_panic_without_relationship :
  SaveScanResult (mkTargetScanResult (Some "a") None None None "") (mkPutParams None) demoState
  = Panicked nilDereference
  /\ UpdateScanResult
       (mkTargetScanResult (Some "c") None None None "done") (mkPatchParams None)
       (mkSt (mkDemoWorld
                [mkScanResult (mkTargetScanResult (Some "c") (Some 1)
                                 (Some (mkScanRelationship "scan-1")) None "")] 0) [])
     = Panicked nilDereference.
Proof. split; reflexivity. Qed.

End Gorm.
